(** * Converter.py: the ACF to SDF converter, embedded and verified

    A shallow embedding of [AcfToSdfConverter] (src/Converter.py): the
    key/value parser, the suffix lookup, the coordinate transform, the mass
    resolution, the fuselage bounding-box aggregation and the generators of
    the engines, the wings and the landing gear.

    Conventions of the embedding.
    - A Python [float] is a binary64 number: Rocq's primitive [float], whose
      operations are the IEEE-754 ones Python uses.
    - A Python [str] is a [string]; a character is a code point below 256.
    - A Python [dict] is an association list in insertion order with unique
      keys ([OrderedDict] below): assignment to a present key keeps its place.
    - A Python [int] that indexes parts is an [N]; the interpreter's limit on
      the number of digits [int] reads is left out (its error would be caught
      by the scan like any other).
    - [print] is a list of diagnostics returned with the result; an uncaught
      exception is [Raise].
    - The rendering of a record as XML text (f-string formatting) is not
      modelled: the functions return the numbers that are formatted. *)

From Stdlib Require Import List String Ascii Bool Arith NArith ZArith Lia.
From Stdlib Require Import DecimalString Floats.
From Stdlib Require DecimalN.
Import ListNotations.

Set Warnings "-inexact-float".

Open Scope string_scope.
Open Scope list_scope.
Open Scope nat_scope.

(* ================================================================== *)
(** ** Python string primitives *)

Module PyStr.

(** [c.isspace()] on code points below 256: TAB..CR, FS..US, SPACE, NEL, NBSP. *)
Definition isspace (c : ascii) : bool :=
  let n := nat_of_ascii c in
  ((9 <=? n) && (n <=? 13)) || ((28 <=? n) && (n <=? 32))
  || (n =? 133) || (n =? 160).

(** [c.isdigit()] on code points below 256: 0..9 and the superscripts
    two, three and one (which [int] refuses). *)
Definition isdigit_char (c : ascii) : bool :=
  let n := nat_of_ascii c in
  ((48 <=? n) && (n <=? 57)) || (n =? 178) || (n =? 179) || (n =? 185).

Definition is_ascii_digit (c : ascii) : bool :=
  let n := nat_of_ascii c in (48 <=? n) && (n <=? 57).

Fixpoint all_chars (p : ascii -> bool) (s : string) : bool :=
  match s with
  | EmptyString => true
  | String c r => p c && all_chars p r
  end.

Definition is_empty (s : string) : bool :=
  match s with EmptyString => true | _ => false end.

(** [s.isdigit()]: at least one character, all of them digits. *)
Definition isdigit (s : string) : bool :=
  negb (is_empty s) && all_chars isdigit_char s.

Fixpoint rev_onto (s acc : string) : string :=
  match s with
  | EmptyString => acc
  | String c r => rev_onto r (String c acc)
  end.

Definition rev (s : string) : string := rev_onto s "".

Fixpoint lstrip (s : string) : string :=
  match s with
  | EmptyString => ""
  | String c r => if isspace c then lstrip r else s
  end.

Definition rstrip (s : string) : string := rev (lstrip (rev s)).

(** [s.strip()] *)
Definition strip (s : string) : string := rstrip (lstrip s).

(** [s.startswith(p)] *)
Fixpoint startswith (p s : string) : bool :=
  match p, s with
  | EmptyString, _ => true
  | String a p', String b s' => Ascii.eqb a b && startswith p' s'
  | String _ _, EmptyString => false
  end.

(** [s.endswith(suf)]: the last [len(suf)] characters of [s] are [suf]. *)
Definition endswith (suf s : string) : bool :=
  (String.length suf <=? String.length s)
  && String.eqb (substring (String.length s - String.length suf)
                          (String.length suf) s) suf.

(** [sub in s] *)
Fixpoint contains (sub s : string) : bool :=
  startswith sub s
  || match s with
     | EmptyString => false
     | String _ r => contains sub r
     end.

(** [s.split()]: the maximal runs of non-whitespace characters. [tok] is the
    run being read. *)
Fixpoint split_ws_from (tok s : string) : list string :=
  match s with
  | EmptyString => if is_empty tok then [] else [tok]
  | String c r =>
      if isspace c
      then (if is_empty tok then split_ws_from "" r
            else tok :: split_ws_from "" r)
      else split_ws_from (tok ++ String c "") r
  end.

Definition split_ws (s : string) : list string := split_ws_from "" s.

(** [s.split(sep)] for a one-character separator: never an empty list. *)
Fixpoint split_on_from (sep : ascii) (tok s : string) : list string :=
  match s with
  | EmptyString => [tok]
  | String c r =>
      if Ascii.eqb c sep then tok :: split_on_from sep "" r
      else split_on_from sep (tok ++ String c "") r
  end.

Definition split_on (sep : ascii) (s : string) : list string :=
  split_on_from sep "" s.

(** [int(s)] for a string that passed [isdigit]: the decimal value, or a
    [ValueError] ([None]) when a digit is a superscript. *)
Fixpoint int_from (acc : N) (s : string) : option N :=
  match s with
  | EmptyString => Some acc
  | String c r =>
      if is_ascii_digit c
      then int_from (acc * 10 + (N_of_ascii c - 48))%N r
      else None
  end.

Definition int_of_str (s : string) : option N :=
  if is_empty s then None else int_from 0%N s.

(** [str(n)] for a non-negative [int]. *)
Definition str_of_int (n : N) : string :=
  NilEmpty.string_of_uint (N.to_uint n).

(** [lst.index(x)] on a list of strings; [None] is the [ValueError]. *)
Fixpoint index_of (x : string) (l : list string) : option nat :=
  match l with
  | [] => None
  | y :: r => if String.eqb y x then Some 0
              else option_map S (index_of x r)
  end.

End PyStr.

(* ================================================================== *)
(** ** Insertion-ordered dictionaries *)

Module OrderedDict.
Section Dict.
Context {K V : Type}.
Variable eqb : K -> K -> bool.

(** [d[k]], [None] for the [KeyError] *)
Fixpoint get (d : list (K * V)) (k : K) : option V :=
  match d with
  | [] => None
  | (k', v) :: r => if eqb k' k then Some v else get r k
  end.

(** [k in d] *)
Definition mem (d : list (K * V)) (k : K) : bool :=
  match get d k with Some _ => true | None => false end.

(** [d[k] = v]: in place when [k] is present, appended otherwise *)
Fixpoint set (d : list (K * V)) (k : K) (v : V) : list (K * V) :=
  match d with
  | [] => [(k, v)]
  | (k', v') :: r =>
      if eqb k' k then (k', v) :: r else (k', v') :: set r k v
  end.

(** [d.keys()] *)
Definition keys (d : list (K * V)) : list K := map fst d.

End Dict.
End OrderedDict.

(* ================================================================== *)
(** ** Values, exceptions and diagnostics *)

(** One token of a line after [float] was tried on it. *)
Inductive atom : Type :=
| AFloat (f : float)
| AStr (s : string).

(** What [_parse_acf] stores under a key: [parsed_values[0]] when the line
    has one value, the list [parsed_values] otherwise. *)
Inductive value : Type :=
| Single (a : atom)
| Many (l : list atom).

Definition store : Type := list (string * value).

Inductive exn : Type := TypeError | ValueError | KeyError | IndexError.

Inductive result (A : Type) : Type :=
| Ok (a : A)
| Raise (e : exn).
Arguments Ok {A} a.
Arguments Raise {A} e.

Definition bind {A B : Type} (r : result A) (k : A -> result B) : result B :=
  match r with
  | Ok a => k a
  | Raise e => Raise e
  end.

Notation "x <- r ;; k" := (bind r (fun x => k))
  (at level 61, r at next level, right associativity).

(** The lines the converter prints. *)
Inductive diag : Type :=
| InfoMass (mass_lb mass_kg : float)   (* [INFO] Massa Totale trovata *)
| WarnNoMass                           (* [WARNING] Massa non trovata *)
| DebugError (key : string) (e : exn)  (* DEBUG ERROR su chiave *)
| WarnNoPoints (n_keys : nat)          (* [WARNING] Nessun punto _geo_xyz *)
| InfoPoints (count_points n_parts : nat). (* [INFO] Trovati ... punti *)

(** The attributes of [self]. *)
Record Converter : Type := {
  data : store;
  LB_TO_KG : float;
  FT_TO_M : float;
  DEFAULT_INERTIA : float;
  default_power_watt : float;
  default_rotor_inertia : float;
  mass_lb : value
}.

(** The numbers [generate_inertial_xml] formats into the inertial block. *)
Record InertialRecord : Type := {
  mass : float;
  ixx : float;
  iyy : float;
  izz : float
}.

(** [parts_bounds[idx]]: the samples of the axes 0 (longitudinal),
    1 (lateral) and 2 (vertical). *)
Record Bounds : Type := {
  axis0 : list float;
  axis1 : list float;
  axis2 : list float
}.

(** The numbers formatted into one collision and visual block. *)
Record CollisionRecord : Type := {
  part : N;
  pose : float * float * float;
  size : float * float * float
}.

(** What [generate_fuselage_collisions] returns: the empty string, or the
    header followed by one block per record. *)
Inductive fuselage_xml : Type :=
| NoOutput
| Blocks (records : list CollisionRecord).

Record ScanState : Type := {
  parts_bounds : list (N * Bounds);
  count_points : nat;
  scan_log : list diag
}.

(** How the body of the [try] ends for one key, before the archiving step. *)
Inductive key_parse : Type :=
| Skip                                        (* a [continue] *)
| Fail (e : exn)                              (* caught by [except] *)
| Point (part_idx axis : N) (val_float : float).

Definition newline : ascii := "010"%char.

Definition is_nil {A : Type} (l : list A) : bool :=
  match l with [] => true | _ => false end.

(** [min(l)], [max(l)]: the first item, replaced by a later one that is
    smaller (larger); a [ValueError] on the empty list. *)
Definition py_min (l : list float) : result float :=
  match l with
  | [] => Raise ValueError
  | x :: r => Ok (fold_left (fun m it => if (it <? m)%float then it else m) r x)
  end.

Definition py_max (l : list float) : result float :=
  match l with
  | [] => Raise ValueError
  | x :: r => Ok (fold_left (fun m it => if (m <? it)%float then it else m) r x)
  end.

(** [max(a, b)] *)
Definition py_max2 (a b : float) : float := if (a <? b)%float then b else a.

Definition empty_bounds : Bounds := {| axis0 := []; axis1 := []; axis2 := [] |}.

(** [bounds[axis].append(v)]; [None] is the [KeyError] of an axis that is
    not 0, 1 or 2. *)
Definition append_axis (b : Bounds) (axis : N) (v : float) : option Bounds :=
  match axis with
  | 0%N => Some {| axis0 := axis0 b ++ [v]; axis1 := axis1 b; axis2 := axis2 b |}
  | 1%N => Some {| axis0 := axis0 b; axis1 := axis1 b ++ [v]; axis2 := axis2 b |}
  | 2%N => Some {| axis0 := axis0 b; axis1 := axis1 b; axis2 := axis2 b ++ [v] |}
  | _ => None
  end.

(** [self.mass_lb == 0]: false for a string or a list. *)
Definition eq_zero (v : value) : bool :=
  match v with
  | Single (AFloat f) => (f =? 0)%float
  | _ => false
  end.

(* ================================================================== *)
(** ** The methods of [AcfToSdfConverter] *)

Section Methods.

(** Python's builtin [float] on a string: [None] is its [ValueError]. *)
Variable py_float : string -> option float.

(** [try: float(v) except ValueError: v] *)
Definition parse_token (v : string) : atom :=
  match py_float v with
  | Some f => AFloat f
  | None => AStr v
  end.

(** The body of the loop of [_parse_acf] on one line: the assignment
    [data[key] = ...] it makes, or [None] when the line is passed over. *)
Definition line_entry (line : string) : option (string * value) :=
  let line := PyStr.strip line in
  if PyStr.is_empty line || negb (PyStr.startswith "P " line) then None
  else
    let parts := PyStr.split_ws line in
    if 3 <=? List.length parts then
      let key := nth 1 parts "" in
      let values := skipn 2 parts in
      let parsed_values := map parse_token values in
      Some (key, match parsed_values with
                 | [x] => Single x
                 | _ => Many parsed_values
                 end)
    else None.

Definition parse_line (d : store) (line : string) : store :=
  match line_entry line with
  | Some (key, v) => OrderedDict.set String.eqb d key v
  | None => d
  end.

Definition _parse_acf (content : string) : store :=
  fold_left parse_line (PyStr.split_on newline (PyStr.strip content)) [].

(** The [for key, val in self.data.items()] loop of [get_value]. *)
Fixpoint first_endswith (items : store) (key_suffix : string) : option value :=
  match items with
  | [] => None
  | (key, val) :: rest =>
      if PyStr.endswith key_suffix key then Some val
      else first_endswith rest key_suffix
  end.

(** [get_value] reads [self.data] only, so it takes the store. *)
Definition get_value (d : store) (key_suffix : string) (default : value)
  : value :=
  match OrderedDict.get String.eqb d key_suffix with
  | Some v => v
  | None =>
      match first_endswith d key_suffix with
      | Some v => v
      | None => default
      end
  end.

Definition __init__ (acf_content : string) : Converter :=
  let d := _parse_acf acf_content in
  let m := get_value d "acf/_m_empty" (Single (AFloat 0)) in
  let m := if eq_zero m then get_value d "_cgpt/0/_w_now" (Single (AFloat 0))
           else m in
  {| data := d;
     LB_TO_KG := 0.453592;
     FT_TO_M := 0.3048;
     DEFAULT_INERTIA := 0.1;
     default_power_watt := 400.0;
     default_rotor_inertia := 0.0001;
     mass_lb := m |}.

Definition convert_coords (self : Converter)
  (xp_x_lat xp_y_vert xp_z_long : float) : float * float * float :=
  let gz_x := (- (xp_z_long * FT_TO_M self))%float in
  let gz_y := (- (xp_x_lat * FT_TO_M self))%float in
  let gz_z := (xp_y_vert * FT_TO_M self)%float in
  (gz_x, gz_y, gz_z).

(** The [return] of the source stands inside the [else] branch: with a
    positive mass the method prints and falls off its end ([None]).
    [self.mass_lb > 0] on a string or a list is a [TypeError]. *)
Definition generate_inertial_xml (self : Converter)
  : result (list diag * option InertialRecord) :=
  let mass_kg := 1.0%float in
  match mass_lb self with
  | Single (AFloat m) =>
      if (0 <? m)%float then
        let mass_kg := (m * LB_TO_KG self)%float in
        Ok ([InfoMass m mass_kg], None)
      else
        let i := (mass_kg * 0.05)%float in
        Ok ([WarnNoMass],
            Some {| mass := mass_kg; ixx := i; iyy := i; izz := i |})
  | _ => Raise TypeError
  end.

(** [float(x)] on a stored token and on a stored value. *)
Definition float_of_atom (a : atom) : result float :=
  match a with
  | AFloat f => Ok f
  | AStr s => match py_float s with
              | Some f => Ok f
              | None => Raise ValueError
              end
  end.

Definition float_of_value (v : value) : result float :=
  match v with
  | Single a => float_of_atom a
  | Many _ => Raise TypeError
  end.

(** Steps 1 to 3 of the [try] body of the scan. *)
Definition parse_key (key : string) (val : value) : key_parse :=
  let segments := PyStr.split_on "/" key in
  match PyStr.index_of "_part" segments with
  | None => Skip
  | Some idx_tag =>
      match nth_error segments (idx_tag + 1) with
      | None => Skip
      | Some seg =>
          if negb (PyStr.isdigit seg) then Skip else
          match PyStr.int_of_str seg with
          | None => Fail ValueError
          | Some part_idx =>
              let grid_segment := last segments "" in
              let grid_coords := PyStr.split_on "," grid_segment in
              if negb (List.length grid_coords =? 3) then Skip else
              let axis_str := nth 2 grid_coords "" in
              if negb (PyStr.isdigit axis_str) then Skip else
              match PyStr.int_of_str axis_str with
              | None => Fail ValueError
              | Some axis =>
                  let coerced :=
                    match val with
                    | Many [] => Raise IndexError
                    | Many (a :: _) => float_of_atom a
                    | Single a => float_of_atom a
                    end in
                  match coerced with
                  | Raise e => Fail e
                  | Ok val_float => Point part_idx axis val_float
                  end
              end
          end
      end
  end.

(** One iteration of the scan loop. Step 4 creates the entry of the part
    before it indexes the axis, so the entry stays when the axis is refused. *)
Definition scan_entry (st : ScanState) (kv : string * value) : ScanState :=
  let (key, val) := kv in
  if PyStr.contains "_geo_xyz" key && PyStr.contains "_part/" key then
    match parse_key key val with
    | Skip => st
    | Fail e =>
        {| parts_bounds := parts_bounds st;
           count_points := count_points st;
           scan_log := scan_log st ++ [DebugError key e] |}
    | Point part_idx axis val_float =>
        let pb :=
          if OrderedDict.mem N.eqb (parts_bounds st) part_idx
          then parts_bounds st
          else OrderedDict.set N.eqb (parts_bounds st) part_idx empty_bounds in
        let bounds :=
          match OrderedDict.get N.eqb pb part_idx with
          | Some b => b
          | None => empty_bounds
          end in
        match append_axis bounds axis val_float with
        | None =>
            {| parts_bounds := pb;
               count_points := count_points st;
               scan_log := scan_log st ++ [DebugError key KeyError] |}
        | Some bounds' =>
            {| parts_bounds := OrderedDict.set N.eqb pb part_idx bounds';
               count_points := S (count_points st);
               scan_log := scan_log st |}
        end
    end
  else st.

Definition scan (d : store) : ScanState :=
  fold_left scan_entry d
    {| parts_bounds := []; count_points := 0; scan_log := [] |}.

(** [f"_part/{idx}/_part_x"] and its siblings. *)
Definition offset_key (idx : N) (name : string) : string :=
  "_part/" ++ PyStr.str_of_int idx ++ "/" ++ name.

(** [float(self.get_value(f"_part/{idx}/<name>", 0.0))]: the offset of the
    part along one source axis. *)
Definition part_offset (self : Converter) (idx : N) (name : string)
  : result float :=
  float_of_value
    (get_value (data self) (offset_key idx name) (Single (AFloat 0))).

(** The conversion written in place in [generate_fuselage_collisions]:
    from the total longitudinal, lateral and vertical position to the
    target frame. *)
Definition fuselage_position (self : Converter)
  (tot_long tot_lat tot_vert : float) : float * float * float :=
  let gz_x := (- (tot_long * FT_TO_M self))%float in
  let gz_y := (- (tot_lat * FT_TO_M self))%float in
  let gz_z := (tot_vert * FT_TO_M self)%float in
  (gz_x, gz_y, gz_z).

(** The body of the emission loop for one part: [Ok None] is a [continue]. *)
Definition emit_part (self : Converter) (idx : N) (bounds : Bounds)
  : result (option CollisionRecord) :=
  if is_nil (axis0 bounds) || is_nil (axis1 bounds) || is_nil (axis2 bounds)
  then Ok None
  else
    min_l <- py_min (axis0 bounds) ;; max_l <- py_max (axis0 bounds) ;;
    min_w <- py_min (axis1 bounds) ;; max_w <- py_max (axis1 bounds) ;;
    min_h <- py_min (axis2 bounds) ;; max_h <- py_max (axis2 bounds) ;;
    let size_l := (max_l - min_l)%float in
    let size_w := (max_w - min_w)%float in
    let size_h := (max_h - min_h)%float in
    if (size_l <? 0.01)%float && (size_w <? 0.01)%float then Ok None
    else
      let center_l := ((min_l + max_l) / 2)%float in
      let center_w := ((min_w + max_w) / 2)%float in
      let center_h := ((min_h + max_h) / 2)%float in
      off_x <- part_offset self idx "_part_x" ;;
      off_y <- part_offset self idx "_part_y" ;;
      off_z <- part_offset self idx "_part_z" ;;
      let tot_long := (off_z + center_l)%float in
      let tot_lat := (off_x + center_w)%float in
      let tot_vert := (off_y + center_h)%float in
      let dim_x := py_max2 (size_l * FT_TO_M self)%float 0.05%float in
      let dim_y := py_max2 (size_w * FT_TO_M self)%float 0.05%float in
      let dim_z := py_max2 (size_h * FT_TO_M self)%float 0.05%float in
      Ok (Some {| part := idx;
                  pose := fuselage_position self tot_long tot_lat tot_vert;
                  size := (dim_x, dim_y, dim_z) |}).

(** The emission loop: [xml_output] grows by one block per emitted part;
    an exception leaves the method. *)
Fixpoint emit_parts (self : Converter) (items : list (N * Bounds))
  (xml_output : list CollisionRecord) : result (list CollisionRecord) :=
  match items with
  | [] => Ok xml_output
  | (idx, bounds) :: rest =>
      r <- emit_part self idx bounds ;;
      emit_parts self rest
        (match r with
         | Some c => xml_output ++ [c]
         | None => xml_output
         end)
  end.

Definition generate_fuselage_collisions (self : Converter)
  : result (list diag * fuselage_xml) :=
  let st := scan (data self) in
  if is_nil (parts_bounds st) then
    Ok (scan_log st ++ [WarnNoPoints (List.length (data self))], NoOutput)
  else
    recs <- emit_parts self (parts_bounds st) [] ;;
    Ok (scan_log st
          ++ [InfoPoints (count_points st) (List.length (parts_bounds st))],
        Blocks recs).

End Methods.

(* ================================================================== *)
(** ** A float reader for the worked examples

    [float] is Python's own; the methods above take it as [py_float]. The
    examples below run them with [decimal_float], which reads [nan], [inf]
    and plain decimals of at most 15 digits: there the quotient of the
    digits by the power of ten is the correctly rounded value, as [float]
    returns it. Every other token is refused. *)

Module Example.

Fixpoint digits_from (acc : Z) (s : string) : option Z :=
  match s with
  | EmptyString => Some acc
  | String c r =>
      if PyStr.is_ascii_digit c
      then digits_from (acc * 10 + (Z.of_nat (nat_of_ascii c) - 48))%Z r
      else None
  end.

Definition float_of_Z (z : Z) : float := PrimFloat.of_uint63 (Uint63.of_Z z).

Definition unsigned_decimal (s : string) : option float :=
  match PyStr.split_on "." s with
  | [i] =>
      if PyStr.is_empty i || (15 <? String.length i) then None
      else option_map float_of_Z (digits_from 0%Z i)
  | [i; f] =>
      if PyStr.is_empty (i ++ f) || (15 <? String.length (i ++ f)) then None
      else
        match digits_from 0%Z (i ++ f) with
        | Some n =>
            Some (float_of_Z n
                  / float_of_Z (10 ^ Z.of_nat (String.length f)))%float
        | None => None
        end
  | _ => None
  end.

Definition decimal_float (s : string) : option float :=
  if String.eqb s "nan" then Some nan
  else if String.eqb s "inf" then Some infinity
  else
    match s with
    | String "-" r => option_map PrimFloat.opp (unsigned_decimal r)
    | _ => unsigned_decimal s
    end.

(** A converter over a given store, with the constants of [__init__]. *)
Definition converter_of (d : store) (m : value) : Converter :=
  {| data := d;
     LB_TO_KG := 0.453592;
     FT_TO_M := 0.3048;
     DEFAULT_INERTIA := 0.1;
     default_power_watt := 400.0;
     default_rotor_inertia := 0.0001;
     mass_lb := m |}.

(** Part 0 with the samples 0 and 10 on axis 0, 0 and 2 on axis 1, 0 and 1
    on axis 2, and no offset key. *)
Definition box_store : store :=
  [("_part/0/_geo_xyz/0,0,0", Single (AFloat 0));
   ("_part/0/_geo_xyz/1,0,0", Single (AFloat 10));
   ("_part/0/_geo_xyz/0,0,1", Single (AFloat 0));
   ("_part/0/_geo_xyz/1,0,1", Single (AFloat 2));
   ("_part/0/_geo_xyz/0,0,2", Single (AFloat 0));
   ("_part/0/_geo_xyz/1,0,2", Single (AFloat 1))].

(** A part of extent 0.001 on the axes 0 and 1 and of extent 100 on axis 2. *)
Definition flat_bounds : Bounds :=
  {| axis0 := [0; 0.001]%float;
     axis1 := [0; 0.001]%float;
     axis2 := [0; 100]%float |}.

(** A part that is long on axis 0 only. *)
Definition rod_bounds : Bounds :=
  {| axis0 := [0; 10]%float; axis1 := [1]%float; axis2 := [2]%float |}.

(** A converter whose length ratio is 1. *)
Definition unit_converter : Converter :=
  {| data := [];
     LB_TO_KG := 0.453592;
     FT_TO_M := 1;
     DEFAULT_INERTIA := 0.1;
     default_power_watt := 400.0;
     default_rotor_inertia := 0.0001;
     mass_lb := Single (AFloat 0) |}.

(** Two keys with the same last segment. *)
Definition twin_store : store :=
  [("x/k", Single (AFloat 1)); ("y/k", Single (AFloat 2))].

(** The record of [box_store] under the constants of [__init__]. *)
Definition box_record : CollisionRecord :=
  {| part := 0;
     pose := ((-1.524)%float, (-0.3048)%float, 0.1524%float);
     size := (3.048%float, 0.6096%float, 0.3048%float) |}.

Definition nl : string := String newline "".

(** The marker followed by a TAB, then a key and a value. *)
Definition tab_line : string := String "P" (String "009" "k 1").

(** Only the legacy mass key, with 27.0. *)
Definition legacy_mass_text : string := "P _cgpt/0/_w_now 27.0".

(** One point of part 0 whose axis component is 5. *)
Definition refused_axis_text : string := "P _part/0/_geo_xyz/0,0,5 1.0".

(** Part 0 with one sample per axis, NaN on axis 0. *)
Definition nan_text : string :=
  "P _part/0/_geo_xyz/0,0,0 nan" ++ nl
  ++ "P _part/0/_geo_xyz/0,0,1 0" ++ nl
  ++ "P _part/0/_geo_xyz/0,0,2 0".

End Example.

(* ================================================================== *)
(** ** The generators of the engines, the wings and the landing gear

    These methods pass the integer [0] as a default and call [int] on what
    comes back, so a looked-up value is a stored value or a Python [int].
    [int] can raise an [OverflowError], which joins the exceptions above. *)

(** A value a lookup returns: one of the store, or an [int] default. *)
Inductive pyval : Type :=
| Stored (v : value)
| PyInt (z : Z).

Inductive py_error : Type :=
| Builtin (e : exn)
| OverflowError.

Inductive outcome (A : Type) : Type :=
| Done (a : A)
| Throw (e : py_error).
Arguments Done {A} a.
Arguments Throw {A} e.

Definition and_then {A B : Type} (r : outcome A) (k : A -> outcome B)
  : outcome B :=
  match r with
  | Done a => k a
  | Throw e => Throw e
  end.

Notation "x <~ r ;; k" := (and_then r (fun x => k))
  (at level 61, r at next level, right associativity).

(** What a generator returns: the empty string, or its header followed by
    one block per record. *)
Inductive xml (A : Type) : Type :=
| EmptyXml
| HeaderAnd (blocks : list A).
Arguments EmptyXml {A}.
Arguments HeaderAnd {A} blocks.

(** The numbers formatted into one gear link. *)
Record GearRecord : Type := {
  gear_index : N;
  gear_pose : float * float * float;
  gear_radius : float
}.

(** What is formatted into one wing link: the suffix of its name, the box
    (depth, width, height) and the colour. *)
Record WingRecord : Type := {
  wing_index : N;
  wing_suffix : string;
  wing_box : float * float * float;
  wing_color : string
}.

(** The numbers formatted into one rotor link. *)
Record RotorRecord : Type := {
  rotor_index : N;
  rotor_radius : float;
  rotor_inertia : float
}.

(** The two steps of [get_value] without its default. *)
Definition find_value (d : store) (key_suffix : string) : option value :=
  match OrderedDict.get String.eqb d key_suffix with
  | Some v => Some v
  | None => first_endswith d key_suffix
  end.

(** [get_value] with a default that may be an [int]. *)
Definition get_value_or (d : store) (key_suffix : string) (default : pyval)
  : pyval :=
  match find_value d key_suffix with
  | Some v => Stored v
  | None => default
  end.

(** [int(f)] on a float: truncation towards zero; a [ValueError] on NaN and
    an [OverflowError] on an infinity. *)
Definition int_of_float (f : float) : outcome Z :=
  match Prim2SF f with
  | S754_zero _ => Done 0%Z
  | S754_finite s m e =>
      Done (cond_Zopp s (if (0 <=? e)%Z then Z.pos m * 2 ^ e
                         else Z.pos m / 2 ^ (- e))%Z)
  | S754_infinity _ => Throw OverflowError
  | S754_nan => Throw (Builtin ValueError)
  end.

(** [float(z)] on an [int], as in [0.1 * blades]: the nearest float, or an
    [OverflowError] beyond the range. *)
Definition float_of_int (z : Z) : outcome float :=
  match binary_normalize prec emax z 0 false with
  | S754_infinity _ => Throw OverflowError
  | sf => Done (SF2Prim sf)
  end.

(** [x * self.FT_TO_M], [x >= 0] and the like on a stored value: a string
    or a list is a [TypeError]. *)
Definition as_number (v : value) : outcome float :=
  match v with
  | Single (AFloat f) => Done f
  | _ => Throw (Builtin TypeError)
  end.

(** [range(count)] *)
Definition py_range (count : Z) : list N :=
  map N.of_nat (seq 0 (Z.to_nat count)).

(** A [for i in range(count)] loop whose body appends a block or continues;
    an exception leaves the method. *)
Fixpoint run_loop {A : Type} (body : N -> outcome (option A))
  (indices : list N) (xml_output : list A) : outcome (list A) :=
  match indices with
  | [] => Done xml_output
  | i :: rest =>
      r <~ body i ;;
      run_loop body rest
        (match r with
         | Some c => xml_output ++ [c]
         | None => xml_output
         end)
  end.

Section Generators.
Local Open Scope string_scope.

(** Python's builtin [int] on a string: [None] is its [ValueError]. *)
Variable py_int : string -> option Z.

(** [int(x)] *)
Definition int_of (x : pyval) : outcome Z :=
  match x with
  | PyInt z => Done z
  | Stored (Single (AFloat f)) => int_of_float f
  | Stored (Single (AStr s)) =>
      match py_int s with
      | Some z => Done z
      | None => Throw (Builtin ValueError)
      end
  | Stored (Many _) => Throw (Builtin TypeError)
  end.

Definition _get_prop_data (self : Converter) (index : N)
  : outcome (Z * string) :=
  let num_blades :=
    get_value (data self)
      ("_prop/" ++ PyStr.str_of_int index ++ "/_num_blades")
      (get_value (data self) "_prop/0/_num_blades" (Single (AFloat 2))) in
  let direction_val :=
    get_value (data self)
      ("_prop/" ++ PyStr.str_of_int index ++ "/_prop_dir")
      (get_value (data self) "_prop/0/_prop_dir" (Single (AFloat 1))) in
  dir <~ as_number direction_val ;;
  let direction_str := if (0 <=? dir)%float then "cw" else "ccw" in
  blades <~ int_of (Stored num_blades) ;;
  Done (blades, direction_str).

(** The [try] that counts the motors: any exception gives 0. *)
Definition engine_count (self : Converter) : Z :=
  match (count_eng <~ int_of (get_value_or (data self) "_engn/count" (PyInt 0)) ;;
         count_prop <~ int_of (get_value_or (data self) "_prop/count" (PyInt 0)) ;;
         Done (Z.max count_eng count_prop)) with
  | Done count => count
  | Throw _ => 0%Z
  end.

Definition engine_body (self : Converter) (i : N)
  : outcome (option RotorRecord) :=
  let eng_type :=
    get_value (data self) ("_engn/" ++ PyStr.str_of_int i ++ "/_type")
      (get_value (data self) "_engn/0/_type" (Single (AStr "UNK"))) in
  bd <~ _get_prop_data self i ;;
  let (blades, direction) := bd in
  b <~ float_of_int blades ;;
  Done (Some {| rotor_index := i;
                rotor_radius := (0.1 * b)%float;
                rotor_inertia := default_rotor_inertia self |}).

Definition generate_engines_xml (self : Converter)
  : outcome (xml RotorRecord) :=
  let count := engine_count self in
  if (count =? 0)%Z then Done EmptyXml
  else
    recs <~ run_loop (engine_body self) (py_range count) [] ;;
    Done (HeaderAnd recs).

Definition wing_body (self : Converter) (i : N)
  : outcome (option WingRecord) :=
  let prefix := "_wing/" ++ PyStr.str_of_int i in
  let semi_len_ft :=
    get_value (data self) (prefix ++ "/_semilen_SEG") (Single (AFloat 0)) in
  let chord_root_ft :=
    get_value (data self) (prefix ++ "/_Croot") (Single (AFloat 0)) in
  let chord_tip_ft :=
    get_value (data self) (prefix ++ "/_Ctip") (Single (AFloat 0)) in
  if eq_zero semi_len_ft && eq_zero chord_root_ft then Done None
  else
    semi <~ as_number semi_len_ft ;;
    let semi_len_m := (semi * FT_TO_M self)%float in
    root <~ as_number chord_root_ft ;;
    tip <~ as_number chord_tip_ft ;;
    let chord_mean_m := ((root + tip) / 2 * FT_TO_M self)%float in
    let width := semi_len_m in
    let depth := if (0 <? chord_mean_m)%float then chord_mean_m
                 else 0.05%float in
    let height := 0.005%float in
    let color := if (semi_len_m <? 0.5)%float then "1 0 0 1"
                 else "0.5 0.5 0.5 1" in
    let name_suffix := if (semi_len_m <? 0.5)%float then "prop_blade"
                       else "wing_surface" in
    Done (Some {| wing_index := i;
                  wing_suffix := name_suffix;
                  wing_box := (depth, width, height);
                  wing_color := color |}).

Definition generate_wings_xml (self : Converter) : outcome (xml WingRecord) :=
  count <~ int_of (get_value_or (data self) "_wing/count" (PyInt 0)) ;;
  if (count =? 0)%Z then Done EmptyXml
  else
    recs <~ run_loop (wing_body self) (py_range count) [] ;;
    Done (HeaderAnd recs).

Definition gear_body (self : Converter) (i : N)
  : outcome (option GearRecord) :=
  let prefix := "_gear/" ++ PyStr.str_of_int i in
  let g_type := get_value_or (data self) (prefix ++ "/_gear_type") (PyInt 0) in
  t <~ int_of g_type ;;
  if (t =? 0)%Z then Done None
  else
    let xp_x := get_value (data self) (prefix ++ "/_gear_x") (Single (AFloat 0)) in
    let xp_y := get_value (data self) (prefix ++ "/_gear_y") (Single (AFloat 0)) in
    let xp_z := get_value (data self) (prefix ++ "/_gear_z") (Single (AFloat 0)) in
    let radius_ft :=
      get_value (data self) (prefix ++ "/_tire_radius") (Single (AFloat 0.1)) in
    radius <~ as_number radius_ft ;;
    let radius_m := (radius * FT_TO_M self)%float in
    long <~ as_number xp_z ;;
    lat <~ as_number xp_x ;;
    vert <~ as_number xp_y ;;
    Done (Some {| gear_index := i;
                  gear_pose := convert_coords self lat vert long;
                  gear_radius := radius_m |}).

Definition generate_gear_xml (self : Converter) : outcome (xml GearRecord) :=
  count <~ int_of (get_value_or (data self) "_gear/count" (PyInt 0)) ;;
  if (count =? 0)%Z then Done EmptyXml
  else
    recs <~ run_loop (gear_body self) (py_range count) [] ;;
    Done (HeaderAnd recs).

End Generators.

(** An [int] reader for the worked examples: the decimal integers of at
    most 18 digits, with an optional minus sign. *)
Definition decimal_int (s : string) : option Z :=
  let digits r :=
    if PyStr.is_empty r || (18 <? String.length r) then None
    else Example.digits_from 0%Z r in
  match s with
  | String "-" r => option_map Z.opp (digits r)
  | _ => digits s
  end.

(** A converter over a store, with the constants of [__init__]. *)
Definition on_store (d : store) : Converter :=
  Example.converter_of d (Single (AFloat 0)).

(** Two gear slots, the first one empty with a word as a coordinate. *)
Definition gear_store : store :=
  [("_gear/count", Single (AFloat 2));
   ("_gear/0/_gear_x", Single (AStr "none"));
   ("_gear/1/_gear_type", Single (AFloat 1));
   ("_gear/1/_gear_x", Single (AFloat 1));
   ("_gear/1/_gear_y", Single (AFloat 2));
   ("_gear/1/_gear_z", Single (AFloat 3))].

(** Three wing slots: an empty one, a short blade, a wing without chord. *)
Definition wing_store : store :=
  [("_wing/count", Single (AFloat 3));
   ("_wing/0/_Ctip", Single (AStr "none"));
   ("_wing/1/_semilen_SEG", Single (AFloat 1));
   ("_wing/1/_Croot", Single (AFloat 0.5));
   ("_wing/1/_Ctip", Single (AFloat 0.5));
   ("_wing/2/_semilen_SEG", Single (AFloat 10))].

(** Two motors counted by the propellers, the template with three blades. *)
Definition engine_store : store :=
  [("_engn/count", Single (AStr "many"));
   ("_prop/count", Single (AFloat 2))].

Definition prop_store : store :=
  [("_prop/count", Single (AFloat 2));
   ("_prop/0/_num_blades", Single (AFloat 3));
   ("_prop/1/_prop_dir", Single (AFloat (-1)))].

(** The box of part 0 with its x offset stored as a word. *)
Definition offset_word_store : store :=
  Example.box_store ++ [("_part/0/_part_x", Single (AStr "left"))].

(** The box of part 0 shifted by the offsets 1, 2 and 3. *)
Definition offset_store : store :=
  Example.box_store
  ++ [("_part/0/_part_x", Single (AFloat 1));
      ("_part/0/_part_y", Single (AFloat 2));
      ("_part/0/_part_z", Single (AFloat 3))].

(** One gear slot and one wing slot, all values finite numbers. *)
Definition landing_store : store :=
  [("_gear/count", Single (AFloat 1));
   ("_gear/0/_gear_type", Single (AFloat 2));
   ("_gear/0/_gear_z", Single (AFloat 4));
   ("_wing/count", Single (AFloat 1));
   ("_wing/0/_semilen_SEG", Single (AFloat 3))].

(** A key assigned twice, with another key in between. *)
Definition twice_text : string :=
  "P k 1" ++ Example.nl ++ "P k 2 3" ++ Example.nl ++ "P other 5".

(** A primary mass that is a word, beside a legacy mass of 27.0. *)
Definition word_mass_text : string :=
  "P acf/_m_empty heavy" ++ Example.nl ++ "P _cgpt/0/_w_now 27.0".

(** One key whose axis component is 5, as the parser stores it. *)
Definition refused_axis_store : store :=
  [("_part/0/_geo_xyz/0,0,5", Single (AFloat 1))].

(** Two motors counted by the propellers, and no other key. *)
Definition count_only_store : store := [("_prop/count", Single (AFloat 2))].

(** The entry of part 0 after the scan of [box_store]. *)
Definition box_bounds : Bounds :=
  {| axis0 := [0; 10]%float; axis1 := [0; 2]%float; axis2 := [0; 1]%float |}.

(** Part 0 with the samples NaN, 0 and 10 on axis 0, in that order, 0 and 2
    on axis 1 and 0 and 1 on axis 2. *)
Definition nan_first_text : string :=
  "P _part/0/_geo_xyz/0,0,0 nan" ++ Example.nl
  ++ "P _part/0/_geo_xyz/1,0,0 0" ++ Example.nl
  ++ "P _part/0/_geo_xyz/2,0,0 10" ++ Example.nl
  ++ "P _part/0/_geo_xyz/0,0,1 0" ++ Example.nl
  ++ "P _part/0/_geo_xyz/1,0,1 2" ++ Example.nl
  ++ "P _part/0/_geo_xyz/0,0,2 0" ++ Example.nl
  ++ "P _part/0/_geo_xyz/1,0,2 1".

(** The same samples with 0 before NaN on axis 0. *)
Definition nan_second_text : string :=
  "P _part/0/_geo_xyz/0,0,0 0" ++ Example.nl
  ++ "P _part/0/_geo_xyz/1,0,0 nan" ++ Example.nl
  ++ "P _part/0/_geo_xyz/2,0,0 10" ++ Example.nl
  ++ "P _part/0/_geo_xyz/0,0,1 0" ++ Example.nl
  ++ "P _part/0/_geo_xyz/1,0,1 2" ++ Example.nl
  ++ "P _part/0/_geo_xyz/0,0,2 0" ++ Example.nl
  ++ "P _part/0/_geo_xyz/1,0,2 1".

(** A part that is 10 long, 2 wide and 0.1 high. *)
Definition thin_bounds : Bounds :=
  {| axis0 := [10; 0]%float; axis1 := [0; 2]%float; axis2 := [0.1; 0]%float |}.

(** A converter over a store with a given length ratio. *)
Definition with_ratio (d : store) (ratio : float) : Converter :=
  {| data := d;
     LB_TO_KG := 0.453592;
     FT_TO_M := ratio;
     DEFAULT_INERTIA := 0.1;
     default_power_watt := 400.0;
     default_rotor_inertia := 0.0001;
     mass_lb := Single (AFloat 0) |}.




(* ================================================================== *)
(** ** The vocabulary of the specification *)

(** [suffix] is a trailing substring of [key]. *)
Definition trailing (suffix key : string) : Prop :=
  exists before, key = (before ++ suffix)%string.


(** The trimmed line is the marker [P], one space, and a rest that holds at
    least two whitespace-separated tokens. *)
Definition qualifies (line : string) : Prop :=
  exists rest,
    PyStr.strip line = String "P" (String " " rest)
    /\ 2 <= List.length (PyStr.split_ws rest).

(** The same with any whitespace character after the marker. *)
Definition qualifies_any_whitespace (line : string) : Prop :=
  exists c rest,
    PyStr.strip line = String "P" (String c rest)
    /\ PyStr.isspace c = true
    /\ 2 <= List.length (PyStr.split_ws rest).

(** No sample of the list is NaN. *)
Definition no_nan (l : list float) : Prop :=
  forall x, In x l -> is_nan x = false.

(** The structural point a stored entry stands for: part index, axis (0, 1
    or 2) and coordinate; [None] for an entry that is no such point. *)
Definition sample_of (py_float : string -> option float)
  (kv : string * value) : option (N * N * float) :=
  let (key, val) := kv in
  if PyStr.contains "_geo_xyz" key && PyStr.contains "_part/" key then
    match parse_key py_float key val with
    | Point p a v => if (a <? 3)%N then Some (p, a, v) else None
    | _ => None
    end
  else None.

Definition samples (py_float : string -> option float) (d : store)
  : list (N * N * float) :=
  flat_map (fun kv => match sample_of py_float kv with
                      | Some s => [s]
                      | None => []
                      end) d.

(** The coordinates observed for a part on an axis, in the order of the
    store. *)
Definition bucket (idx axis : N) (ss : list (N * N * float)) : list float :=
  map snd (filter (fun s => (fst (fst s) =? idx)%N && (snd (fst s) =? axis)%N) ss).

(** The distinct part indices that have a structural point. *)
Definition observed_parts (py_float : string -> option float) (d : store)
  : list N :=
  nodup N.eq_dec (map (fun s => fst (fst s)) (samples py_float d)).

(** A size triple is strictly positive on the three axes. *)
Definition positive_size (s : float * float * float) : bool :=
  let '(x, y, z) := s in
  ((0 <? x) && (0 <? y) && (0 <? z))%float.

(** An axis size is NaN, or at least the floor of 0.05 and positive. *)
Definition floored (x : float) : Prop :=
  is_nan x = true \/ ((0.05 <=? x)%float = true /\ (0 <? x)%float = true).

(** The entry of a part holds exactly the coordinates observed for it. *)
Definition bounds_are (b : Bounds) (idx : N) (ss : list (N * N * float))
  : Prop :=
  axis0 b = bucket idx 0 ss /\ axis1 b = bucket idx 1 ss
  /\ axis2 b = bucket idx 2 ss.

(** The invariant of the scan loop after the entries [seen]: the keys of
    [parts_bounds] are distinct, every entry holds the coordinates observed
    for its part, a part without entry has no point, and [count_points]
    counts the points. *)
Definition scan_inv (py_float : string -> option float) (st : ScanState)
  (seen : store) : Prop :=
  NoDup (OrderedDict.keys (parts_bounds st))
  /\ count_points st = List.length (samples py_float seen)
  /\ forall idx,
       match OrderedDict.get N.eqb (parts_bounds st) idx with
       | Some b => bounds_are b idx (samples py_float seen)
       | None => ~ In idx (map (fun s => fst (fst s)) (samples py_float seen))
       end.

(** [lo] and [hi] are the least and the greatest sample of [l]. *)
Definition extrema (lo hi : float) (l : list float) : Prop :=
  In lo l /\ In hi l
  /\ forall x, In x l -> (lo <=? x)%float = true /\ (x <=? hi)%float = true.

(** The outcome of a comparison of binary64 numbers reads as at most, and
    as less than. *)
Definition cmp_le (c : option comparison) : bool :=
  match c with Some Lt | Some Eq => true | _ => false end.

Definition cmp_lt (c : option comparison) : bool :=
  match c with Some Lt => true | _ => false end.

(** Case analysis over three binary64 numbers, and the comparisons of their
    exponents and mantissas. *)
Ltac sf_cases x y z :=
  destruct x as [?sx|?sx| |?sx ?mx ?ex], y as [?sy|?sy| |?sy ?my ?ey],
           z as [?sz|?sz| |?sz ?mz ?ez];
  simpl; try discriminate; try reflexivity;
  repeat match goal with
         | s : bool |- _ => destruct s; simpl; try discriminate; try reflexivity
         end.

Ltac sf_order :=
  repeat match goal with
         | |- context [PosDef.Pos.compare_cont Eq ?a ?b] =>
             change (PosDef.Pos.compare_cont Eq a b) with (Pos.compare a b)
         end;
  repeat match goal with
         | |- context [(?a ?= ?b)%Z] => destruct (Z.compare_spec a b)
         end;
  subst; simpl; try discriminate; try reflexivity; try lia;
  repeat match goal with
         | |- context [(?a ?= ?b)%positive] => destruct (Pos.compare_spec a b)
         end;
  subst; simpl; try discriminate; try reflexivity; try lia.


(** The string holds no whitespace character. *)
Definition whitespace_free (s : string) : bool :=
  PyStr.all_chars (fun c => negb (PyStr.isspace c)) s.

(** A stored token is a number [float] read from some token, or a token
    that [float] refused. *)
Definition token_ok (py_float : string -> option float) (a : atom) : Prop :=
  match a with
  | AFloat f => exists s, py_float s = Some f
  | AStr s => py_float s = None /\ s <> ""%string
  end.

(** A stored value is one token, or a list of at least two. *)
Definition value_ok (py_float : string -> option float) (v : value) : Prop :=
  match v with
  | Single a => token_ok py_float a
  | Many l => 2 <= List.length l /\ Forall (token_ok py_float) l
  end.

(** The records a loop appends: those of the iterations that emit one. *)
Definition emitted {A : Type} (body : N -> outcome (option A))
  (indices : list N) : list A :=
  flat_map (fun i => match body i with
                     | Done (Some c) => [c]
                     | _ => []
                     end) indices.

(** Every value of the store is a single number. *)
Definition all_numbers (d : store) : Prop :=
  forall key v, In (key, v) d -> exists f, v = Single (AFloat f).

(** The records the emission loop appends for the entries [items]. *)
Definition emitted_parts (py_float : string -> option float)
  (self : Converter) (items : list (N * Bounds)) : list CollisionRecord :=
  flat_map (fun kv => match emit_part py_float self (fst kv) (snd kv) with
                      | Ok (Some c) => [c]
                      | _ => []
                      end) items.

(** The key of the property [name] of slot [i] of a group, as the
    generators format it: [f"{group}{i}{name}"]. *)
Definition slot_key (group : string) (i : N) (name : string) : string :=
  ((group ++ PyStr.str_of_int i) ++ name)%string.

(** Every value of the store is a single finite number. *)
Definition all_finite_numbers (d : store) : Prop :=
  forall key v, In (key, v) d ->
    exists f, v = Single (AFloat f)
              /\ is_nan f = false /\ is_infinity f = false.

(** The rotor of motor [i] with the default two blades. *)
Definition default_rotor (self : Converter) (i : N) : RotorRecord :=
  {| rotor_index := i;
     rotor_radius := 0.2%float;
     rotor_inertia := default_rotor_inertia self |}.

(** The key of a property of propeller [i]: [f"_prop/{i}{name}"]. *)
Definition prop_key (i : N) (name : string) : string :=
  ("_prop/" ++ PyStr.str_of_int i ++ name)%string.

(** The box, suffix and colour of a wing of half span [semi] and chords
    [root] and [tip], in source units. *)
Definition wing_shape (self : Converter) (semi root tip : float)
  : (float * float * float) * string * string :=
  let width := (semi * FT_TO_M self)%float in
  let chord := ((root + tip) / 2 * FT_TO_M self)%float in
  ((if (0 <? chord)%float then chord else 0.05%float, width, 0.005%float),
   if (width <? 0.5)%float then "prop_blade"%string else "wing_surface"%string,
   if (width <? 0.5)%float then "1 0 0 1"%string else "0.5 0.5 0.5 1"%string).

(** The string holds no slash. *)
Definition slash_free (s : string) : bool :=
  PyStr.all_chars (fun c => negb (Ascii.eqb c "/")) s.

(* ================================================================== *)
(** ** Facts about the string primitives *)

Lemma string_length_app (a b : string) :
  String.length (a ++ b) = String.length a + String.length b.
Proof. induction a as [|c a IH]; simpl; [reflexivity | now rewrite IH]. Qed.

Lemma substring_all (s : string) : substring 0 (String.length s) s = s.
Proof. induction s as [|c s IH]; simpl; [reflexivity | now rewrite IH]. Qed.

Lemma substring_after (p s : string) :
  substring (String.length p) (String.length s) (p ++ s) = s.
Proof.
  induction p as [|c p IH]; simpl.
  - apply substring_all.
  - exact IH.
Qed.

Lemma substring_split (n : nat) :
  forall s, n <= String.length s ->
    exists p, s = (p ++ substring n (String.length s - n) s)%string.
Proof.
  induction n as [|n IH]; intros s Hn.
  - exists ""%string. simpl. rewrite Nat.sub_0_r. now rewrite substring_all.
  - destruct s as [|c s]; simpl in Hn; [lia|].
    destruct (IH s) as [p Hp]; [lia|].
    exists (String c p). simpl. now rewrite <- Hp.
Qed.

(** [endswith] decides the trailing-substring relation. *)
Lemma endswith_trailing (suffix key : string) :
  PyStr.endswith suffix key = true <-> trailing suffix key.
Proof.
  unfold PyStr.endswith, trailing. rewrite andb_true_iff, Nat.leb_le, String.eqb_eq.
  split.
  - intros [Hle Hsub].
    destruct (substring_split (String.length key - String.length suffix) key)
      as [p Hp]; [lia|].
    exists p. rewrite Hp at 1. f_equal.
    replace (String.length key - (String.length key - String.length suffix))
      with (String.length suffix) by lia.
    exact Hsub.
  - intros [p ->]. rewrite string_length_app. split; [lia|].
    replace (String.length p + String.length suffix - String.length suffix)
      with (String.length p) by lia.
    apply substring_after.
Qed.

Lemma endswith_not_trailing (suffix key : string) :
  PyStr.endswith suffix key = false <-> ~ trailing suffix key.
Proof.
  rewrite <- endswith_trailing. destruct (PyStr.endswith suffix key); split;
    intros H; try reflexivity; try discriminate; try (intros H'; discriminate).
  exfalso. now apply H.
Qed.


Lemma is_empty_true (s : string) : PyStr.is_empty s = true <-> s = ""%string.
Proof. destruct s; simpl; split; intros H; congruence. Qed.

Lemma is_empty_app_char (tok : string) (c : ascii) :
  PyStr.is_empty (tok ++ String c "") = false.
Proof. destruct tok; reflexivity. Qed.

(** [split] yields no empty token. *)
Lemma split_ws_from_nonempty (s : string) :
  forall tok t, In t (PyStr.split_ws_from tok s) -> t <> ""%string.
Proof.
  induction s as [|c r IH]; intros tok t; simpl.
  - destruct (PyStr.is_empty tok) eqn:E; simpl; [tauto|].
    intros [<-|[]] ->. discriminate.
  - destruct (PyStr.isspace c).
    + destruct (PyStr.is_empty tok) eqn:E.
      * apply IH.
      * intros [<-|H]; [intros ->; discriminate | now apply IH in H].
    + apply IH.
Qed.

Lemma split_ws_nonempty (s t : string) :
  In t (PyStr.split_ws s) -> t <> ""%string.
Proof. apply split_ws_from_nonempty. Qed.

(** A line that starts with the marker and a space splits into the marker
    and the tokens of the rest. *)
Lemma split_ws_marker (rest : string) :
  PyStr.split_ws (String "P" (String " " rest)) = "P"%string :: PyStr.split_ws rest.
Proof. reflexivity. Qed.

Lemma startswith_marker (line : string) :
  PyStr.startswith "P " line = true
  <-> exists rest, line = String "P" (String " " rest).
Proof.
  split.
  - destruct line as [|a [|b rest]]; cbn [PyStr.startswith]; try discriminate.
    + destruct (Ascii.eqb "P" a); discriminate.
    + destruct (Ascii.eqb_spec "P" a) as [<-|]; [|discriminate].
      destruct (Ascii.eqb_spec " " b) as [<-|]; [|discriminate].
      intros _. now exists rest.
  - intros [rest ->]. reflexivity.
Qed.

(* ================================================================== *)
(** ** Facts about insertion-ordered dictionaries *)

Section DictFacts.
Context {K V : Type}.
Variable eqb : K -> K -> bool.
Hypothesis eqb_eq : forall a b, eqb a b = true <-> a = b.

Local Abbreviation dget := (OrderedDict.get eqb).
Local Abbreviation dset := (OrderedDict.set eqb).
Local Abbreviation dmem := (OrderedDict.mem eqb).
Local Abbreviation dkeys := (@OrderedDict.keys K V).

Lemma eqb_same (a : K) : eqb a a = true.
Proof. now apply eqb_eq. Qed.

Lemma eqb_diff (a b : K) : a <> b -> eqb a b = false.
Proof.
  intros H. destruct (eqb a b) eqn:E; [|reflexivity].
  apply eqb_eq in E. contradiction.
Qed.

Lemma dict_get_In (d : list (K * V)) (k : K) (v : V) :
  dget d k = Some v -> In (k, v) d.
Proof.
  induction d as [|[k' v'] r IH]; simpl; [discriminate|].
  destruct (eqb k' k) eqn:E.
  - apply eqb_eq in E. intros [= ->]. left. now subst.
  - intros H. right. now apply IH.
Qed.

Lemma dict_get_None (d : list (K * V)) (k : K) :
  dget d k = None <-> ~ In k (dkeys d).
Proof.
  induction d as [|[k' v'] r IH]; simpl; [tauto|].
  destruct (eqb k' k) eqn:E.
  - apply eqb_eq in E. split; [discriminate|]. intros H. exfalso. apply H. now left.
  - rewrite IH. split.
    + intros H [H'|H']; [|tauto]. subst. rewrite eqb_same in E. discriminate.
    + tauto.
Qed.

Lemma dict_In_get (d : list (K * V)) (k : K) (v : V) :
  NoDup (dkeys d) -> In (k, v) d -> dget d k = Some v.
Proof.
  induction d as [|[k' v'] r IH]; simpl; [tauto|].
  intros Hnd [H|H].
  - injection H as -> ->. now rewrite eqb_same.
  - inversion Hnd as [|? ? Hnotin Hnd']; subst.
    destruct (eqb k' k) eqn:E.
    + apply eqb_eq in E. subst. exfalso. apply Hnotin.
      change k with (fst (k, v)). now apply in_map.
    + now apply IH.
Qed.

Lemma dict_mem_In (d : list (K * V)) (k : K) :
  dmem d k = true <-> In k (dkeys d).
Proof.
  unfold OrderedDict.mem. destruct (dget d k) eqn:E.
  - split; [intros _|reflexivity]. apply dict_get_In in E.
    change k with (fst (k, v)). now apply in_map.
  - apply dict_get_None in E. split; [discriminate | contradiction].
Qed.

Lemma dict_keys_set (d : list (K * V)) (k : K) (v : V) :
  dkeys (dset d k v) = if dmem d k then dkeys d else dkeys d ++ [k].
Proof.
  unfold OrderedDict.mem.
  induction d as [|[k' v'] r IH]; simpl; [reflexivity|].
  destruct (eqb k' k) eqn:E; simpl; [reflexivity|].
  rewrite IH. now destruct (dget r k).
Qed.

Lemma dict_get_set_same (d : list (K * V)) (k : K) (v : V) :
  dget (dset d k v) k = Some v.
Proof.
  induction d as [|[k' v'] r IH]; simpl.
  - now rewrite eqb_same.
  - destruct (eqb k' k) eqn:E; simpl; now rewrite E.
Qed.

Lemma dict_get_set_other (d : list (K * V)) (k k' : K) (v : V) :
  k <> k' -> dget (dset d k v) k' = dget d k'.
Proof.
  intros Hne. induction d as [|[k0 v0] r IH]; simpl.
  - now rewrite eqb_diff.
  - destruct (eqb k0 k) eqn:E; simpl.
    + apply eqb_eq in E. subst. now rewrite eqb_diff.
    + now rewrite IH.
Qed.

Lemma dict_NoDup_set (d : list (K * V)) (k : K) (v : V) :
  NoDup (dkeys d) -> NoDup (dkeys (dset d k v)).
Proof.
  intros Hnd. rewrite dict_keys_set. destruct (dmem d k) eqn:E; [assumption|].
  apply NoDup_app; [assumption | repeat constructor; intros [] |].
  intros x Hx [<-|[]].
  apply dict_mem_In in Hx. congruence.
Qed.

Lemma dict_In_set (d : list (K * V)) (k k' : K) (v v' : V) :
  In (k', v') (dset d k v) -> (k' = k /\ v' = v) \/ In (k', v') d.
Proof.
  induction d as [|[k0 v0] r IH]; simpl.
  - intros [[= <- <-]|[]]. now left.
  - destruct (eqb k0 k) eqn:E; simpl.
    + apply eqb_eq in E. subst.
      intros [[= <- <-]|H]; [now left | now right; right].
    + intros [H|H]; [now right; left|].
      destruct (IH H) as [?|?]; [now left | now right; right].
Qed.

Lemma dict_set_not_nil (d : list (K * V)) (k : K) (v : V) : dset d k v <> [].
Proof.
  destruct d as [|[k0 v0] r]; simpl; [discriminate|].
  destruct (eqb k0 k); discriminate.
Qed.

End DictFacts.

(* ================================================================== *)
(** ** The property store: parsing and lookup *)

Lemma string_eqb_eq (a b : string) : String.eqb a b = true <-> a = b.
Proof. apply String.eqb_eq. Qed.

Lemma first_endswith_none (d : store) (key_suffix : string) :
  first_endswith d key_suffix = None
  <-> (forall key v, In (key, v) d -> ~ trailing key_suffix key).
Proof.
  induction d as [|[k v] r IH]; simpl.
  - split; [intros _ ? ? [] | reflexivity].
  - destruct (PyStr.endswith key_suffix k) eqn:E.
    + split; [discriminate|]. intros H. exfalso.
      apply (H k v); [now left | now apply endswith_trailing].
    + rewrite IH. apply endswith_not_trailing in E. split.
      * intros H key v' [[= <- <-]|Hin]; [assumption | now apply (H key v')].
      * intros H key v' Hin. apply (H key v'). now right.
Qed.

Lemma first_endswith_first (before after : store) (key : string) (v : value)
  (key_suffix : string) :
  trailing key_suffix key ->
  (forall k' v', In (k', v') before -> ~ trailing key_suffix k') ->
  first_endswith (before ++ (key, v) :: after) key_suffix = Some v.
Proof.
  intros Hkey. induction before as [|[k0 v0] r IH]; simpl; intros Hbefore.
  - apply endswith_trailing in Hkey. now rewrite Hkey.
  - assert (E : PyStr.endswith key_suffix k0 = false).
    { apply endswith_not_trailing. apply (Hbefore k0 v0). now left. }
    rewrite E. apply IH. intros k' v' Hin. apply (Hbefore k' v'). now right.
Qed.


Section StoreFacts.
Variable py_float : string -> option float.





Lemma parse_line_NoDup (d : store) (line : string) :
  NoDup (OrderedDict.keys d) ->
  NoDup (OrderedDict.keys (parse_line py_float d line)).
Proof.
  unfold parse_line. intros Hd.
  destruct (line_entry py_float line) as [[key v]|]; [|assumption].
  now apply (dict_NoDup_set String.eqb string_eqb_eq).
Qed.

(** A parsed store holds each key once. *)
Lemma parse_acf_NoDup (content : string) :
  NoDup (OrderedDict.keys (_parse_acf py_float content)).
Proof.
  unfold _parse_acf.
  assert (H : forall lines d, NoDup (OrderedDict.keys d) ->
            NoDup (OrderedDict.keys (fold_left (parse_line py_float) lines d))).
  { induction lines as [|l r IH]; intros d Hd; simpl; [assumption|].
    apply IH. now apply parse_line_NoDup. }
  apply H. constructor.
Qed.

(** C9 (as amended): a line makes an assignment in the store exactly when,
    once trimmed, it starts with the marker P followed by a space character
    and carries at least two tokens after the marker; every other line
    leaves the store as it was. *)
Theorem line_qualification (line : string) :
  ((exists key v, line_entry py_float line = Some (key, v)) <-> qualifies line)
  /\ (forall d, ~ qualifies line -> parse_line py_float d line = d).
Proof.
  assert (Hiff : (exists key v, line_entry py_float line = Some (key, v))
                 <-> qualifies line).
  { unfold line_entry, qualifies.
    destruct (PyStr.startswith "P " (PyStr.strip line)) eqn:Hsw.
    - destruct (proj1 (startswith_marker _) Hsw) as [rest Hrest].
      rewrite Hrest. cbn [PyStr.is_empty orb negb].
      rewrite split_ws_marker. cbn [List.length Nat.leb].
      split.
      + intros [key [v H]]. exists rest. split; [reflexivity|].
        destruct (PyStr.split_ws rest) as [|a [|b l]]; simpl in *;
          try discriminate; lia.
      + intros [rest' [[= <-] Hlen]].
        destruct (PyStr.split_ws rest) as [|a [|b l]]; simpl in *; try lia.
        eexists. eexists. reflexivity.
    - rewrite orb_true_r. split.
      + intros [key [v H]]. discriminate.
      + intros [rest [Hrest _]]. rewrite Hrest in Hsw. discriminate. }
  split; [exact Hiff|].
  intros d Hn. unfold parse_line.
  destruct (line_entry py_float line) as [[key v]|] eqn:E; [|reflexivity].
  exfalso. apply Hn, Hiff. now exists key, v.
Qed.


End StoreFacts.

Lemma get_value_exact (d : store) (key_suffix : string) (default v : value) :
  NoDup (OrderedDict.keys d) -> In (key_suffix, v) d ->
  get_value d key_suffix default = v.
Proof.
  intros Hnd Hin. unfold get_value.
  now rewrite (dict_In_get String.eqb string_eqb_eq d key_suffix v Hnd Hin).
Qed.

Lemma get_value_first_match (before after : store) (key key_suffix : string)
  (default v : value) :
  ~ In key_suffix (OrderedDict.keys (before ++ (key, v) :: after)) ->
  trailing key_suffix key ->
  (forall k' v', In (k', v') before -> ~ trailing key_suffix k') ->
  get_value (before ++ (key, v) :: after) key_suffix default = v.
Proof.
  intros Hnot Hkey Hbefore. unfold get_value.
  apply (dict_get_None String.eqb string_eqb_eq) in Hnot. rewrite Hnot.
  now rewrite (first_endswith_first before after key v key_suffix Hkey Hbefore).
Qed.

Lemma get_value_no_match (d : store) (key_suffix : string) (default : value) :
  (forall key v, In (key, v) d -> ~ trailing key_suffix key) ->
  get_value d key_suffix default = default.
Proof.
  intros Hnone. unfold get_value.
  destruct (OrderedDict.get String.eqb d key_suffix) as [v|] eqn:E.
  - apply (dict_get_In String.eqb string_eqb_eq) in E.
    exfalso. apply (Hnone key_suffix v E). now exists ""%string.
  - apply first_endswith_none in Hnone. now rewrite Hnone.
Qed.

(** C3: the lookup contract of [get_value]. In a store with unique keys an
    exact key returns its value; otherwise the first key, in insertion order,
    of which [key_suffix] is a trailing substring returns its value; with no
    such key the default is returned. *)
Theorem get_value_lookup_contract (d : store) (key_suffix : string)
  (default : value) :
  (forall v, NoDup (OrderedDict.keys d) -> In (key_suffix, v) d ->
     get_value d key_suffix default = v)
  /\ (forall before key v after,
        ~ In key_suffix (OrderedDict.keys d) ->
        d = before ++ (key, v) :: after ->
        trailing key_suffix key ->
        (forall k' v', In (k', v') before -> ~ trailing key_suffix k') ->
        get_value d key_suffix default = v)
  /\ ((forall key v, In (key, v) d -> ~ trailing key_suffix key) ->
      get_value d key_suffix default = default)
  /\ (let d5 := [("a/b/c", Single (AFloat 5))] in
      get_value d5 "b/c" default = Single (AFloat 5)
      /\ get_value d5 "c" default = Single (AFloat 5)
      /\ get_value d5 "a/b/c" default = Single (AFloat 5)
      /\ get_value d5 "z" (Single (AFloat 9)) = Single (AFloat 9)).
Proof.
  repeat split; try reflexivity.
  - intros v. apply get_value_exact.
  - intros before key v after Hnot ->. now apply get_value_first_match.
  - apply get_value_no_match.
Qed.

(* ================================================================== *)
(** ** Facts about binary64 arithmetic and comparison *)

Lemma SF64add_comm (x y : spec_float) : SF64add x y = SF64add y x.
Proof.
  unfold SF64add, SFadd.
  destruct x as [sx|sx| |sx mx ex], y as [sy|sy| |sy my ey]; try reflexivity;
    try (destruct sx, sy; reflexivity).
  rewrite (Z.min_comm ey ex). f_equal. apply Z.add_comm.
Qed.

Lemma float_add_comm (x y : float) : (x + y = y + x)%float.
Proof. apply Prim2SF_inj. rewrite !add_spec. apply SF64add_comm. Qed.

Lemma SFcompare_antisym (x y : spec_float) :
  SFcompare y x = option_map CompOpp (SFcompare x y).
Proof.
  destruct x as [sx|sx| |sx mx ex], y as [sy|sy| |sy my ey]; simpl;
    try reflexivity;
    try (destruct sx; reflexivity); try (destruct sy; reflexivity);
    try (destruct sx, sy; reflexivity).
  change (PosDef.Pos.compare_cont Eq mx my) with (Pos.compare mx my).
  change (PosDef.Pos.compare_cont Eq my mx) with (Pos.compare my mx).
  rewrite (Z.compare_antisym ex ey), (Pos.compare_antisym mx my).
  destruct sx, sy; simpl; try reflexivity; f_equal;
    destruct (ex ?= ey)%Z; simpl; try reflexivity;
    now rewrite CompOpp_involutive.
Qed.

Lemma SFcompare_le_lt_trans (x y z : spec_float) :
  cmp_le (SFcompare x y) = true -> cmp_lt (SFcompare y z) = true ->
  cmp_lt (SFcompare x z) = true.
Proof. sf_cases x y z; sf_order. Qed.

Lemma SFcompare_lt_le_trans (x y z : spec_float) :
  cmp_lt (SFcompare x y) = true -> cmp_le (SFcompare y z) = true ->
  cmp_lt (SFcompare x z) = true.
Proof. sf_cases x y z; sf_order. Qed.

Lemma SFcompare_le_le_trans (x y z : spec_float) :
  cmp_le (SFcompare x y) = true -> cmp_le (SFcompare y z) = true ->
  cmp_le (SFcompare x z) = true.
Proof. sf_cases x y z; sf_order. Qed.

Lemma ltb_cmp (x y : float) :
  (x <? y)%float = cmp_lt (SFcompare (Prim2SF x) (Prim2SF y)).
Proof.
  rewrite ltb_spec. unfold SFltb, cmp_lt.
  now destruct (SFcompare (Prim2SF x) (Prim2SF y)) as [[]|].
Qed.

Lemma leb_cmp (x y : float) :
  (x <=? y)%float = cmp_le (SFcompare (Prim2SF x) (Prim2SF y)).
Proof.
  rewrite leb_spec. unfold SFleb, cmp_le.
  now destruct (SFcompare (Prim2SF x) (Prim2SF y)) as [[]|].
Qed.

Lemma is_nan_false (x : float) :
  is_nan x = false <-> Prim2SF x <> S754_nan.
Proof.
  unfold is_nan. rewrite eqb_spec. unfold SFeqb.
  destruct (Prim2SF x) as [s|s| |s m e].
  - split; [discriminate | reflexivity].
  - destruct s; (split; [discriminate | reflexivity]).
  - split; [discriminate | congruence].
  - assert (H : SFcompare (S754_finite s m e) (S754_finite s m e) = Some Eq).
    { simpl. rewrite Z.compare_refl.
      change (PosDef.Pos.compare_cont Eq m m) with (Pos.compare m m).
      rewrite Pos.compare_refl. now destruct s. }
    rewrite H. split; [discriminate | reflexivity].
Qed.

Lemma float_ltb_leb (x y : float) :
  (x <? y)%float = true -> (x <=? y)%float = true.
Proof.
  rewrite ltb_cmp, leb_cmp.
  now destruct (SFcompare (Prim2SF x) (Prim2SF y)) as [[]|].
Qed.

Lemma float_leb_refl (x : float) : is_nan x = false -> (x <=? x)%float = true.
Proof.
  unfold is_nan. rewrite eqb_spec, leb_spec. unfold SFeqb, SFleb.
  now destruct (SFcompare (Prim2SF x) (Prim2SF x)) as [[]|].
Qed.

(** Without NaN the order is total. *)
Lemma float_not_ltb (x y : float) :
  is_nan x = false -> is_nan y = false ->
  (x <? y)%float = false -> (y <=? x)%float = true.
Proof.
  rewrite !is_nan_false, ltb_cmp, leb_cmp.
  rewrite (SFcompare_antisym (Prim2SF x) (Prim2SF y)).
  destruct (Prim2SF x) as [sx|sx| |sx mx ex], (Prim2SF y) as [sy|sy| |sy my ey];
    try congruence; intros _ _;
    destruct (SFcompare _ _) as [[]|] eqn:E; simpl; try congruence;
    simpl in E; try discriminate;
    repeat match goal with s : bool |- _ => destruct s end; discriminate.
Qed.

Lemma float_leb_ltb_trans (x y z : float) :
  (x <=? y)%float = true -> (y <? z)%float = true -> (x <? z)%float = true.
Proof. rewrite !ltb_cmp, leb_cmp. apply SFcompare_le_lt_trans. Qed.

Lemma float_ltb_leb_trans (x y z : float) :
  (x <? y)%float = true -> (y <=? z)%float = true -> (x <? z)%float = true.
Proof. rewrite !ltb_cmp, leb_cmp. apply SFcompare_lt_le_trans. Qed.

Lemma float_leb_trans (x y z : float) :
  (x <=? y)%float = true -> (y <=? z)%float = true -> (x <=? z)%float = true.
Proof. rewrite !leb_cmp. apply SFcompare_le_le_trans. Qed.

(** [max(a, 0.05)] is NaN, or at least the floor and positive. *)
Lemma py_max2_floor (a : float) : floored (py_max2 a 0.05).
Proof.
  unfold floored, py_max2. destruct (a <? 0.05)%float eqn:E.
  - right. split; reflexivity.
  - destruct (is_nan a) eqn:Hnan; [now left | right].
    assert (H : (0.05 <=? a)%float = true).
    { apply float_not_ltb; [assumption | reflexivity | assumption]. }
    split; [assumption|].
    apply (float_ltb_leb_trans 0 0.05 a); [reflexivity | assumption].
Qed.

(** On samples without NaN, [max] returns one of them that no sample
    exceeds. *)
Lemma py_max_fold (r : list float) :
  forall acc, is_nan acc = false -> no_nan r ->
    let m := fold_left (fun m it => if (m <? it)%float then it else m) r acc in
    (m = acc \/ In m r) /\ (acc <=? m)%float = true
    /\ (forall x, In x r -> (x <=? m)%float = true).
Proof.
  induction r as [|it r IH]; intros acc Hacc Hr; simpl.
  - repeat split; [now left | now apply float_leb_refl | intros x []].
  - assert (Hit : is_nan it = false) by (apply Hr; now left).
    assert (Hr' : no_nan r) by (intros x Hx; apply Hr; now right).
    set (acc' := if (acc <? it)%float then it else acc).
    assert (Hacc' : is_nan acc' = false) by (unfold acc'; now destruct (acc <? it)%float).
    assert (H1 : (acc <=? acc')%float = true).
    { unfold acc'. destruct (acc <? it)%float eqn:E;
        [now apply float_ltb_leb | now apply float_leb_refl]. }
    assert (H2 : (it <=? acc')%float = true).
    { unfold acc'. destruct (acc <? it)%float eqn:E;
        [now apply float_leb_refl | now apply float_not_ltb]. }
    destruct (IH acc' Hacc' Hr') as [Hin [Hle Hall]]. repeat split.
    + destruct Hin as [Hin|Hin]; [|now right; right].
      rewrite Hin. unfold acc'. destruct (acc <? it)%float; [right; now left | now left].
    + now apply (float_leb_trans acc acc').
    + intros x [<-|Hx]; [now apply (float_leb_trans _ acc') | now apply Hall].
Qed.

Lemma py_max_spec (l : list float) (m : float) :
  no_nan l -> py_max l = Ok m ->
  In m l /\ (forall x, In x l -> (x <=? m)%float = true).
Proof.
  destruct l as [|a r]; [discriminate|]. intros Hl [= <-].
  destruct (py_max_fold r a) as [Hin [Hle Hall]].
  - apply Hl. now left.
  - intros x Hx. apply Hl. now right.
  - split.
    + destruct Hin as [->|Hin]; [now left | now right].
    + intros x [<-|Hx]; [assumption | now apply Hall].
Qed.

(** On samples without NaN, [min] returns one of them that exceeds no
    sample. *)
Lemma py_min_fold (r : list float) :
  forall acc, is_nan acc = false -> no_nan r ->
    let m := fold_left (fun m it => if (it <? m)%float then it else m) r acc in
    (m = acc \/ In m r) /\ (m <=? acc)%float = true
    /\ (forall x, In x r -> (m <=? x)%float = true).
Proof.
  induction r as [|it r IH]; intros acc Hacc Hr; simpl.
  - repeat split; [now left | now apply float_leb_refl | intros x []].
  - assert (Hit : is_nan it = false) by (apply Hr; now left).
    assert (Hr' : no_nan r) by (intros x Hx; apply Hr; now right).
    set (acc' := if (it <? acc)%float then it else acc).
    assert (Hacc' : is_nan acc' = false) by (unfold acc'; now destruct (it <? acc)%float).
    assert (H1 : (acc' <=? acc)%float = true).
    { unfold acc'. destruct (it <? acc)%float eqn:E;
        [now apply float_ltb_leb | now apply float_leb_refl]. }
    assert (H2 : (acc' <=? it)%float = true).
    { unfold acc'. destruct (it <? acc)%float eqn:E;
        [now apply float_leb_refl | now apply float_not_ltb]. }
    destruct (IH acc' Hacc' Hr') as [Hin [Hle Hall]]. repeat split.
    + destruct Hin as [Hin|Hin]; [|now right; right].
      rewrite Hin. unfold acc'. destruct (it <? acc)%float; [right; now left | now left].
    + now apply (float_leb_trans _ acc').
    + intros x [<-|Hx]; [now apply (float_leb_trans _ acc') | now apply Hall].
Qed.

Lemma py_min_spec (l : list float) (m : float) :
  no_nan l -> py_min l = Ok m ->
  In m l /\ (forall x, In x l -> (m <=? x)%float = true).
Proof.
  destruct l as [|a r]; [discriminate|]. intros Hl [= <-].
  destruct (py_min_fold r a) as [Hin [Hle Hall]].
  - apply Hl. now left.
  - intros x Hx. apply Hl. now right.
  - split.
    + destruct Hin as [->|Hin]; [now left | now right].
    + intros x [<-|Hx]; [assumption | now apply Hall].
Qed.

(* ================================================================== *)
(** ** The scan of the point cloud *)

Lemma bucket_app (idx axis : N) (s1 s2 : list (N * N * float)) :
  bucket idx axis (s1 ++ s2) = bucket idx axis s1 ++ bucket idx axis s2.
Proof. unfold bucket. now rewrite filter_app, map_app. Qed.

Lemma bucket_absent (idx axis : N) (ss : list (N * N * float)) :
  ~ In idx (map (fun s => fst (fst s)) ss) -> bucket idx axis ss = [].
Proof.
  unfold bucket. induction ss as [|[[p a] v] r IH]; simpl; [reflexivity|].
  intros H. destruct (N.eqb_spec p idx) as [->|Hne].
  - exfalso. apply H. now left.
  - simpl. apply IH. tauto.
Qed.

Lemma bucket_present (idx axis : N) (ss : list (N * N * float)) :
  bucket idx axis ss <> [] -> In idx (map (fun s => fst (fst s)) ss).
Proof.
  intros H.
  destruct (in_dec N.eq_dec idx (map (fun s => fst (fst s)) ss)) as [Hin|Hn];
    [assumption|].
  now apply (bucket_absent idx axis) in Hn.
Qed.

Lemma bucket_one (idx axis p a : N) (v : float) :
  bucket idx axis [(p, a, v)]
  = if (p =? idx)%N && (a =? axis)%N then [v] else [].
Proof. unfold bucket. simpl. now destruct ((p =? idx)%N && (a =? axis)%N). Qed.

(** Step 4 first makes sure the part has an entry. *)
Lemma ensure_entry (pb : list (N * Bounds)) (p : N) :
  let pb' := if OrderedDict.mem N.eqb pb p then pb
             else OrderedDict.set N.eqb pb p empty_bounds in
  OrderedDict.get N.eqb pb' p
  = Some (match OrderedDict.get N.eqb pb p with
          | Some b => b
          | None => empty_bounds
          end)
  /\ (forall idx, idx <> p ->
        OrderedDict.get N.eqb pb' idx = OrderedDict.get N.eqb pb idx)
  /\ (NoDup (OrderedDict.keys pb) -> NoDup (OrderedDict.keys pb')).
Proof.
  unfold OrderedDict.mem.
  destruct (OrderedDict.get N.eqb pb p) as [b|] eqn:E; cbv zeta.
  - rewrite E. repeat split; auto.
  - repeat split.
    + apply (dict_get_set_same N.eqb N.eqb_eq).
    + intros idx Hne. apply (dict_get_set_other N.eqb N.eqb_eq). congruence.
    + apply (dict_NoDup_set N.eqb N.eqb_eq).
Qed.

Lemma append_axis_none (b : Bounds) (a : N) (v : float) :
  (a <? 3)%N = false -> append_axis b a v = None.
Proof.
  intros H. apply N.ltb_ge in H.
  destruct a as [ | [q | q | ] ]; try lia; destruct q; try reflexivity; lia.
Qed.

Lemma append_axis_some (b : Bounds) (a : N) (v : float) (idx : N)
  (ss : list (N * N * float)) :
  (a <? 3)%N = true -> bounds_are b idx ss ->
  exists b', append_axis b a v = Some b'
             /\ bounds_are b' idx (ss ++ [(idx, a, v)]).
Proof.
  intros H [H0 [H1 H2]]. apply N.ltb_lt in H.
  assert (Ha : a = 0%N \/ a = 1%N \/ a = 2%N) by lia.
  unfold bounds_are. rewrite !bucket_app, !bucket_one, N.eqb_refl.
  destruct Ha as [-> | [-> | ->]]; eexists; (split; [reflexivity|]); simpl;
    rewrite ?app_nil_r; repeat split; congruence.
Qed.

Lemma bounds_are_other (b : Bounds) (idx p a : N) (v : float)
  (ss : list (N * N * float)) :
  idx <> p -> bounds_are b idx ss -> bounds_are b idx (ss ++ [(p, a, v)]).
Proof.
  intros Hne [H0 [H1 H2]]. unfold bounds_are.
  rewrite !bucket_app, !bucket_one.
  assert (E : (p =? idx)%N = false) by (apply N.eqb_neq; congruence).
  rewrite E. simpl. rewrite !app_nil_r. now repeat split.
Qed.

Section Scan.
Variable py_float : string -> option float.

Lemma samples_app (l1 l2 : store) :
  samples py_float (l1 ++ l2) = samples py_float l1 ++ samples py_float l2.
Proof. unfold samples. apply flat_map_app. Qed.

Lemma samples_one (kv : string * value) :
  samples py_float [kv]
  = match sample_of py_float kv with Some s => [s] | None => [] end.
Proof. unfold samples. simpl. apply app_nil_r. Qed.

(** One iteration keeps the invariant. *)
Lemma scan_entry_inv (st : ScanState) (seen : store) (kv : string * value) :
  scan_inv py_float st seen ->
  scan_inv py_float (scan_entry py_float st kv) (seen ++ [kv]).
Proof.
  intros [Hnd [Hcnt Hb]]. unfold scan_inv.
  rewrite samples_app, samples_one.
  destruct kv as [key val]. unfold scan_entry, sample_of.
  destruct (PyStr.contains "_geo_xyz" key && PyStr.contains "_part/" key);
    [|rewrite app_nil_r; now repeat split].
  destruct (parse_key py_float key val) as [|e|p a v];
    try (rewrite app_nil_r; now repeat split).
  destruct (ensure_entry (parts_bounds st) p) as [Hget [Hother Hnd']].
  cbv zeta in Hget, Hother, Hnd'.
  set (pb' := if OrderedDict.mem N.eqb (parts_bounds st) p
              then parts_bounds st
              else OrderedDict.set N.eqb (parts_bounds st) p empty_bounds) in *.
  rewrite Hget.
  set (b := match OrderedDict.get N.eqb (parts_bounds st) p with
            | Some b => b
            | None => empty_bounds
            end).
  assert (Hbp : bounds_are b p (samples py_float seen)).
  { unfold b. specialize (Hb p).
    destruct (OrderedDict.get N.eqb (parts_bounds st) p); [assumption|].
    unfold bounds_are. now rewrite !(bucket_absent p _ _ Hb). }
  destruct (a <? 3)%N eqn:Ea.
  - destruct (append_axis_some b a v p _ Ea Hbp) as [b' [Happ Hb']].
    rewrite Happ. simpl. repeat split.
    + apply (dict_NoDup_set N.eqb N.eqb_eq). now apply Hnd'.
    + rewrite Hcnt, List.length_app. simpl. lia.
    + intros idx. destruct (N.eq_dec idx p) as [->|Hne].
      * now rewrite (dict_get_set_same N.eqb N.eqb_eq).
      * rewrite (dict_get_set_other N.eqb N.eqb_eq) by congruence.
        rewrite (Hother idx Hne). specialize (Hb idx).
        destruct (OrderedDict.get N.eqb (parts_bounds st) idx).
        -- now apply bounds_are_other.
        -- rewrite map_app, in_app_iff. simpl. intros [H|[H|[]]];
             [contradiction | congruence].
  - rewrite (append_axis_none b a v Ea). simpl. rewrite app_nil_r.
    repeat split.
    + now apply Hnd'.
    + assumption.
    + intros idx. destruct (N.eq_dec idx p) as [->|Hne].
      * now rewrite Hget.
      * rewrite (Hother idx Hne). apply Hb.
Qed.

Lemma scan_fold_inv (rest : store) :
  forall st seen, scan_inv py_float st seen ->
    scan_inv py_float (fold_left (scan_entry py_float) rest st) (seen ++ rest).
Proof.
  induction rest as [|kv r IH]; intros st seen H; simpl.
  - now rewrite app_nil_r.
  - replace (seen ++ kv :: r) with ((seen ++ [kv]) ++ r)
      by (now rewrite <- app_assoc).
    apply IH. now apply scan_entry_inv.
Qed.

(** After the scan, [parts_bounds] groups the structural points of the
    store by part and axis. *)
Lemma scan_groups (d : store) : scan_inv py_float (scan py_float d) d.
Proof.
  unfold scan. apply (scan_fold_inv d _ []).
  repeat split; simpl; [constructor | intros idx []].
Qed.

End Scan.

(* ================================================================== *)
(** ** The emission of the parts *)

Lemma py_min_total (l : list float) : l <> [] -> exists m, py_min l = Ok m.
Proof. destruct l; [congruence | intros _; eexists; reflexivity]. Qed.

Lemma py_max_total (l : list float) : l <> [] -> exists m, py_max l = Ok m.
Proof. destruct l; [congruence | intros _; eexists; reflexivity]. Qed.

Lemma py_min_nonempty (l : list float) (m : float) : py_min l = Ok m -> l <> [].
Proof. destruct l; [discriminate | discriminate]. Qed.

Lemma is_nil_false {A : Type} (l : list A) : is_nil l = false <-> l <> [].
Proof. destruct l; simpl; split; congruence. Qed.

Section Emission.
Variable py_float : string -> option float.

(** What an emitted record is made of. *)
Lemma emit_part_inv (self : Converter) (idx : N) (b : Bounds)
  (c : CollisionRecord) :
  emit_part py_float self idx b = Ok (Some c) ->
  exists min_l max_l min_w max_w min_h max_h off_x off_y off_z,
    py_min (axis0 b) = Ok min_l /\ py_max (axis0 b) = Ok max_l
    /\ py_min (axis1 b) = Ok min_w /\ py_max (axis1 b) = Ok max_w
    /\ py_min (axis2 b) = Ok min_h /\ py_max (axis2 b) = Ok max_h
    /\ ((max_l - min_l <? 0.01) && (max_w - min_w <? 0.01))%float = false
    /\ part_offset py_float self idx "_part_x" = Ok off_x
    /\ part_offset py_float self idx "_part_y" = Ok off_y
    /\ part_offset py_float self idx "_part_z" = Ok off_z
    /\ c = {| part := idx;
              pose := fuselage_position self
                        (off_z + (min_l + max_l) / 2)%float
                        (off_x + (min_w + max_w) / 2)%float
                        (off_y + (min_h + max_h) / 2)%float;
              size := (py_max2 ((max_l - min_l) * FT_TO_M self)%float 0.05%float,
                       py_max2 ((max_w - min_w) * FT_TO_M self)%float 0.05%float,
                       py_max2 ((max_h - min_h) * FT_TO_M self)%float 0.05%float) |}.
Proof.
  unfold emit_part.
  destruct (is_nil (axis0 b) || is_nil (axis1 b) || is_nil (axis2 b));
    [discriminate|].
  destruct (py_min (axis0 b)) as [min_l|]; [|discriminate].
  destruct (py_max (axis0 b)) as [max_l|]; [|discriminate].
  destruct (py_min (axis1 b)) as [min_w|]; [|discriminate].
  destruct (py_max (axis1 b)) as [max_w|]; [|discriminate].
  destruct (py_min (axis2 b)) as [min_h|]; [|discriminate].
  destruct (py_max (axis2 b)) as [max_h|]; [|discriminate].
  cbn [bind].
  destruct ((max_l - min_l <? 0.01) && (max_w - min_w <? 0.01))%float eqn:Ed;
    [discriminate|].
  destruct (part_offset py_float self idx "_part_x") as [off_x|]; [|discriminate].
  destruct (part_offset py_float self idx "_part_y") as [off_y|]; [|discriminate].
  destruct (part_offset py_float self idx "_part_z") as [off_z|]; [|discriminate].
  cbn [bind]. intros [= <-].
  exists min_l, max_l, min_w, max_w, min_h, max_h, off_x, off_y, off_z.
  repeat split; reflexivity || assumption.
Qed.

Lemma emit_part_part (self : Converter) (idx : N) (b : Bounds)
  (c : CollisionRecord) :
  emit_part py_float self idx b = Ok (Some c) ->
  part c = idx /\ axis0 b <> [] /\ axis1 b <> [] /\ axis2 b <> [].
Proof.
  intros H. apply emit_part_inv in H.
  destruct H as (min_l & max_l & min_w & max_w & min_h & max_h & ox & oy & oz
                 & H0 & _ & H1 & _ & H2 & _ & _ & _ & _ & _ & ->).
  repeat split; eauto using py_min_nonempty.
Qed.

(** The records of the loop are those of its iterations, in order. *)
Lemma emit_parts_spec (self : Converter) (items : list (N * Bounds)) :
  forall acc recs,
    emit_parts py_float self items acc = Ok recs ->
    exists new,
      recs = acc ++ new
      /\ (forall c, In c new ->
            exists b, In (part c, b) items
                      /\ emit_part py_float self (part c) b = Ok (Some c))
      /\ (NoDup (OrderedDict.keys items) -> NoDup (map part new))
      /\ List.length new <= List.length items.
Proof.
  induction items as [|[idx b] rest IH]; intros acc recs; simpl.
  - intros [= <-]. exists []. rewrite app_nil_r.
    repeat split; [intros c [] | intros _; apply NoDup_nil | simpl; lia].
  - destruct (emit_part py_float self idx b) as [[c|]|] eqn:E; cbn [bind];
      [| |discriminate]; intros H; apply IH in H;
      destruct H as (new & -> & Hin & Hnd & Hlen).
    + destruct (emit_part_part _ _ _ _ E) as [Hp _].
      exists (c :: new). rewrite <- app_assoc. repeat split.
      * intros c' [<-|Hc'].
        -- exists b. rewrite Hp. split; [now left | assumption].
        -- destruct (Hin c' Hc') as [b' [Hb' He]]. exists b'. split; [now right | assumption].
      * intros Hk. inversion Hk as [|? ? Hnotin Hk']; subst. simpl.
        constructor; [|now apply Hnd].
        intros Hc. apply in_map_iff in Hc. destruct Hc as [c' [Hpc Hc']].
        destruct (Hin c' Hc') as [b' [Hb' _]]. apply Hnotin.
        simpl. rewrite <- Hpc.
        change (part c') with (fst (part c', b')). now apply in_map.
      * simpl. lia.
    + exists new. repeat split.
      * intros c' Hc'. destruct (Hin c' Hc') as [b' [Hb' He]].
        exists b'. split; [now right | assumption].
      * intros Hk. inversion Hk; subst. now apply Hnd.
      * simpl. lia.
Qed.

(** A part that its iteration passes over has no record. *)
Lemma emit_parts_skips (self : Converter) (items : list (N * Bounds))
  (recs : list CollisionRecord) (idx : N) (b : Bounds) :
  NoDup (OrderedDict.keys items) ->
  emit_parts py_float self items [] = Ok recs ->
  In (idx, b) items ->
  emit_part py_float self idx b = Ok None ->
  forall c, In c recs -> part c <> idx.
Proof.
  intros Hnd Hrun Hin Hnone c Hc Hpc.
  destruct (emit_parts_spec self items [] recs Hrun) as (new & -> & Hnew & _).
  simpl in Hc. destruct (Hnew c Hc) as [b' [Hb' He]]. rewrite Hpc in *.
  assert (b' = b).
  { apply (dict_In_get N.eqb N.eqb_eq) in Hin; [|assumption].
    apply (dict_In_get N.eqb N.eqb_eq) in Hb'; [|assumption]. congruence. }
  subst. congruence.
Qed.

End Emission.

(* ================================================================== *)
(** ** The coordinate transform *)

(** C4: [convert_coords] maps (lateral, vertical, longitudinal) to
    x = -(longitudinal * ratio), y = -(lateral * ratio), z = vertical * ratio;
    with ratio 1 the triple (1, 2, 3) goes to (-3, -1, 2). *)
Theorem convert_coords_formula (self : Converter)
  (lateral vertical longitudinal : float) :
  convert_coords self lateral vertical longitudinal
  = ((- (longitudinal * FT_TO_M self))%float,
     (- (lateral * FT_TO_M self))%float,
     (vertical * FT_TO_M self)%float)
  /\ (FT_TO_M self = 1%float ->
      convert_coords self 1 2 3 = ((-3)%float, (-1)%float, 2%float)).
Proof.
  split.
  - reflexivity.
  - intros Hunit. unfold convert_coords. rewrite Hunit. reflexivity.
Qed.

Section Aggregation.
Variable py_float : string -> option float.

Lemma generate_blocks (self : Converter) (log : list diag)
  (recs : list CollisionRecord) :
  generate_fuselage_collisions py_float self = Ok (log, Blocks recs) ->
  emit_parts py_float self (parts_bounds (scan py_float (data self))) []
  = Ok recs.
Proof.
  unfold generate_fuselage_collisions.
  destruct (is_nil (parts_bounds (scan py_float (data self)))); [discriminate|].
  destruct (emit_parts py_float self _ []) as [r|]; cbn [bind];
    [|discriminate].
  now intros [= _ <-].
Qed.

(** Every record comes from an entry of [parts_bounds], whose buckets are
    the coordinates observed for the part. *)
Lemma generate_record (self : Converter) (log : list diag)
  (recs : list CollisionRecord) (c : CollisionRecord) :
  generate_fuselage_collisions py_float self = Ok (log, Blocks recs) ->
  In c recs ->
  exists b,
    emit_part py_float self (part c) b = Ok (Some c)
    /\ bounds_are b (part c) (samples py_float (data self)).
Proof.
  intros Hgen Hc. apply generate_blocks in Hgen.
  destruct (emit_parts_spec py_float self _ [] recs Hgen)
    as (new & -> & Hnew & _).
  destruct (Hnew c Hc) as [b [Hb He]]. exists b. split; [assumption|].
  destruct (scan_groups py_float (data self)) as [Hnd [_ Hall]].
  apply (dict_In_get N.eqb N.eqb_eq) in Hb; [|assumption].
  specialize (Hall (part c)). now rewrite Hb in Hall.
Qed.

(** C5: the position computed in place by the fuselage aggregation is
    [convert_coords] of the same (lateral, vertical, longitudinal) triple,
    for every triple; so the pose of every emitted record is [convert_coords]
    of the offset plus the centre of the bounding box. *)
Theorem transform_uniformity (self : Converter) :
  (forall tot_long tot_lat tot_vert : float,
     fuselage_position self tot_long tot_lat tot_vert
     = convert_coords self tot_lat tot_vert tot_long)
  /\ (forall idx b c,
        emit_part py_float self idx b = Ok (Some c) ->
        exists min_l max_l min_w max_w min_h max_h off_x off_y off_z,
          py_min (axis0 b) = Ok min_l /\ py_max (axis0 b) = Ok max_l
          /\ py_min (axis1 b) = Ok min_w /\ py_max (axis1 b) = Ok max_w
          /\ py_min (axis2 b) = Ok min_h /\ py_max (axis2 b) = Ok max_h
          /\ part_offset py_float self idx "_part_x" = Ok off_x
          /\ part_offset py_float self idx "_part_y" = Ok off_y
          /\ part_offset py_float self idx "_part_z" = Ok off_z
          /\ pose c = convert_coords self
                        (off_x + (min_w + max_w) / 2)%float
                        (off_y + (min_h + max_h) / 2)%float
                        (off_z + (min_l + max_l) / 2)%float).
Proof.
  split.
  - intros tot_long tot_lat tot_vert.
    unfold fuselage_position, convert_coords. reflexivity.
  - intros idx b c H. apply emit_part_inv in H.
    destruct H as (min_l & max_l & min_w & max_w & min_h & max_h & ox & oy & oz
                   & H0 & H1 & H2 & H3 & H4 & H5 & _ & Hx & Hy & Hz & ->).
    exists min_l, max_l, min_w, max_w, min_h, max_h, ox, oy, oz.
    repeat split; assumption || reflexivity.
Qed.

(** The least and the greatest sample of a bucket without NaN are what
    [min] and [max] return. *)
Lemma py_extrema (l : list float) (lo hi : float) :
  py_min l = Ok lo -> py_max l = Ok hi -> no_nan l -> extrema lo hi l.
Proof.
  intros Hlo Hhi Hl.
  destruct (py_min_spec l lo Hl Hlo) as [Hin_lo Hle_lo].
  destruct (py_max_spec l hi Hl Hhi) as [Hin_hi Hle_hi].
  repeat split; auto.
Qed.

(** C2 (as amended): for a part with samples on the three axes, none of
    them NaN, each bucket has a least and a greatest sample, min and max; an
    emitted record has on each axis the size (max - min) times the length
    ratio, replaced by 0.05 when that is below 0.05, and its pose is the
    transform of the offset plus the centre (max + min) / 2. On part 0 with
    samples 0 and 10, 0 and 2, 0 and 1 and no offset the one record has the
    size (10, 2, 1) so scaled and floored and the pose of the centre
    (5, 1, 0.5): (3.048, 0.6096, 0.3048) under the ratio 0.3048, and the floor
    (0.05, 0.05, 0.05) under the ratio 0.001. *)
Theorem part_bounding_box (self : Converter) (idx : N) (b : Bounds) :
  (axis0 b <> [] -> axis1 b <> [] -> axis2 b <> [] ->
   no_nan (axis0 b) -> no_nan (axis1 b) -> no_nan (axis2 b) ->
   exists min_l max_l min_w max_w min_h max_h,
     extrema min_l max_l (axis0 b)
     /\ extrema min_w max_w (axis1 b)
     /\ extrema min_h max_h (axis2 b)
     /\ forall c, emit_part py_float self idx b = Ok (Some c) ->
          size c
          = ((if ((max_l - min_l) * FT_TO_M self <? 0.05)%float
              then 0.05 else (max_l - min_l) * FT_TO_M self)%float,
             (if ((max_w - min_w) * FT_TO_M self <? 0.05)%float
              then 0.05 else (max_w - min_w) * FT_TO_M self)%float,
             (if ((max_h - min_h) * FT_TO_M self <? 0.05)%float
              then 0.05 else (max_h - min_h) * FT_TO_M self)%float)
          /\ exists off_x off_y off_z,
               part_offset py_float self idx "_part_x" = Ok off_x
               /\ part_offset py_float self idx "_part_y" = Ok off_y
               /\ part_offset py_float self idx "_part_z" = Ok off_z
               /\ pose c = convert_coords self
                             (off_x + (max_w + min_w) / 2)%float
                             (off_y + (max_h + min_h) / 2)%float
                             (off_z + (max_l + min_l) / 2)%float)
  /\ (data self = Example.box_store ->
      generate_fuselage_collisions py_float self
      = Ok ([InfoPoints 6 1],
            Blocks [{| part := 0;
                       pose := convert_coords self 1 0.5 5;
                       size := ((if (10 * FT_TO_M self <? 0.05)%float
                                 then 0.05 else 10 * FT_TO_M self)%float,
                                (if (2 * FT_TO_M self <? 0.05)%float
                                 then 0.05 else 2 * FT_TO_M self)%float,
                                (if (1 * FT_TO_M self <? 0.05)%float
                                 then 0.05 else 1 * FT_TO_M self)%float)
                    |}]))
  /\ (data self = Example.box_store -> FT_TO_M self = 0.3048%float ->
      generate_fuselage_collisions py_float self
      = Ok ([InfoPoints 6 1],
            Blocks [{| part := 0;
                       pose := ((-1.524)%float, (-0.3048)%float, 0.1524%float);
                       size := (3.048%float, 0.6096%float, 0.3048%float) |}]))
  /\ (data self = Example.box_store -> FT_TO_M self = 0.001%float ->
      generate_fuselage_collisions py_float self
      = Ok ([InfoPoints 6 1],
            Blocks [{| part := 0;
                       pose := convert_coords self 1 0.5 5;
                       size := (0.05%float, 0.05%float, 0.05%float) |}])).
Proof.
  split; [|split; [|split]].
  - intros H0 H1 H2 N0 N1 N2.
    destruct (py_min_total _ H0) as [min_l Hmin_l].
    destruct (py_max_total _ H0) as [max_l Hmax_l].
    destruct (py_min_total _ H1) as [min_w Hmin_w].
    destruct (py_max_total _ H1) as [max_w Hmax_w].
    destruct (py_min_total _ H2) as [min_h Hmin_h].
    destruct (py_max_total _ H2) as [max_h Hmax_h].
    exists min_l, max_l, min_w, max_w, min_h, max_h.
    split; [now apply py_extrema|].
    split; [now apply py_extrema|].
    split; [now apply py_extrema|].
    intros c H. apply emit_part_inv in H.
    destruct H as (a1 & a2 & a3 & a4 & a5 & a6 & ox & oy & oz
                   & E0 & E1 & E2 & E3 & E4 & E5 & _ & Hx & Hy & Hz & ->).
    assert (a1 = min_l) by congruence. assert (a2 = max_l) by congruence.
    assert (a3 = min_w) by congruence. assert (a4 = max_w) by congruence.
    assert (a5 = min_h) by congruence. assert (a6 = max_h) by congruence.
    subst. split.
    + reflexivity.
    + exists ox, oy, oz. repeat (split; [assumption|]). simpl.
      rewrite (float_add_comm max_w min_w), (float_add_comm max_h min_h),
        (float_add_comm max_l min_l).
      reflexivity.
  - destruct self as [d lb ft di dp dr m]. simpl. intros ->. reflexivity.
  - destruct self as [d lb ft di dp dr m]. simpl. intros -> ->. reflexivity.
  - destruct self as [d lb ft di dp dr m]. simpl. intros -> ->. reflexivity.
Qed.

(** C6 (as amended): the emitted records are at most as many as the
    distinct part indices that have a structural point; every size of an
    emitted record is NaN or at least the floor 0.05, hence strictly
    positive; and the part of an emitted record has a sample on each of the
    three axes. *)
Theorem emission_invariant (self : Converter) (log : list diag)
  (recs : list CollisionRecord) :
  generate_fuselage_collisions py_float self = Ok (log, Blocks recs) ->
  List.length recs <= List.length (observed_parts py_float (data self))
  /\ (forall c, In c recs ->
        floored (fst (fst (size c))) /\ floored (snd (fst (size c)))
        /\ floored (snd (size c)))
  /\ (forall c, In c recs ->
        bucket (part c) 0 (samples py_float (data self)) <> []
        /\ bucket (part c) 1 (samples py_float (data self)) <> []
        /\ bucket (part c) 2 (samples py_float (data self)) <> []).
Proof.
  intros Hgen.
  assert (Hbuckets : forall c, In c recs ->
            bucket (part c) 0 (samples py_float (data self)) <> []
            /\ bucket (part c) 1 (samples py_float (data self)) <> []
            /\ bucket (part c) 2 (samples py_float (data self)) <> []).
  { intros c Hc. destruct (generate_record self log recs c Hgen Hc)
      as [b [He [B0 [B1 B2]]]].
    destruct (emit_part_part py_float _ _ _ _ He) as (_ & N0 & N1 & N2).
    rewrite <- B0, <- B1, <- B2. now repeat split. }
  repeat split; try (now apply Hbuckets).
  - pose proof (generate_blocks self log recs Hgen) as Hrun.
    destruct (emit_parts_spec py_float self _ [] recs Hrun)
      as (new & -> & _ & Hnd & _).
    simpl in *. rewrite <- (length_map part new).
    apply NoDup_incl_length.
    + apply Hnd. apply (scan_groups py_float (data self)).
    + intros p Hp. apply in_map_iff in Hp. destruct Hp as [c [<- Hc]].
      unfold observed_parts. apply nodup_In.
      apply (bucket_present (part c) 0). now apply Hbuckets.
  - destruct (generate_record self log recs c Hgen H) as [b [He _]].
    apply emit_part_inv in He.
    destruct He as (a1 & a2 & a3 & a4 & a5 & a6 & ox & oy & oz
                    & _ & _ & _ & _ & _ & _ & _ & _ & _ & _ & ->).
    apply py_max2_floor.
  - destruct (generate_record self log recs c Hgen H) as [b [He _]].
    apply emit_part_inv in He.
    destruct He as (a1 & a2 & a3 & a4 & a5 & a6 & ox & oy & oz
                    & _ & _ & _ & _ & _ & _ & _ & _ & _ & _ & ->).
    apply py_max2_floor.
  - destruct (generate_record self log recs c Hgen H) as [b [He _]].
    apply emit_part_inv in He.
    destruct He as (a1 & a2 & a3 & a4 & a5 & a6 & ox & oy & oz
                    & _ & _ & _ & _ & _ & _ & _ & _ & _ & _ & ->).
    apply py_max2_floor.
Qed.

(** C7: a part whose longitudinal and lateral sizes are both below 0.01 is
    passed over whatever its vertical extent, and has no record in the
    output; a part with samples on the three axes and a size not below 0.01
    on one of the two axes is not passed over by the filter. *)
Theorem degenerate_part_rejection (self : Converter) (idx : N) (b : Bounds)
  (min_l max_l min_w max_w : float) :
  py_min (axis0 b) = Ok min_l -> py_max (axis0 b) = Ok max_l ->
  py_min (axis1 b) = Ok min_w -> py_max (axis1 b) = Ok max_w ->
  ((max_l - min_l <? 0.01)%float = true ->
   (max_w - min_w <? 0.01)%float = true ->
   emit_part py_float self idx b = Ok None
   /\ forall log recs,
        generate_fuselage_collisions py_float self = Ok (log, Blocks recs) ->
        In (idx, b) (parts_bounds (scan py_float (data self))) ->
        forall c, In c recs -> part c <> idx)
  /\ ((max_l - min_l <? 0.01)%float = false
      \/ (max_w - min_w <? 0.01)%float = false ->
      axis2 b <> [] ->
      emit_part py_float self idx b <> Ok None).
Proof.
  intros Hmin_l Hmax_l Hmin_w Hmax_w.
  assert (Hskip : (max_l - min_l <? 0.01)%float = true ->
                  (max_w - min_w <? 0.01)%float = true ->
                  emit_part py_float self idx b = Ok None).
  { intros Hl Hw. unfold emit_part.
    destruct (is_nil (axis0 b) || is_nil (axis1 b) || is_nil (axis2 b)) eqn:En;
      [reflexivity|].
    apply orb_false_elim in En. destruct En as [_ N2].
    apply is_nil_false in N2.
    rewrite Hmin_l, Hmax_l, Hmin_w, Hmax_w. cbn [bind].
    destruct (py_min_total _ N2) as [min_h ->].
    destruct (py_max_total _ N2) as [max_h ->]. cbn [bind].
    now rewrite Hl, Hw. }
  split.
  - intros Hl Hw. split; [now apply Hskip|].
    intros log recs Hgen Hin.
    apply (emit_parts_skips py_float self
             (parts_bounds (scan py_float (data self))) recs idx b).
    + apply (scan_groups py_float (data self)).
    + now apply (generate_blocks self log).
    + assumption.
    + now apply Hskip.
  - intros Hd H2. unfold emit_part.
    apply py_min_nonempty in Hmin_l as N0. apply py_min_nonempty in Hmin_w as N1.
    apply is_nil_false in N0. apply is_nil_false in N1.
    apply is_nil_false in H2 as N2. rewrite N0, N1, N2. cbn [orb].
    rewrite Hmin_l, Hmax_l, Hmin_w, Hmax_w. cbn [bind].
    destruct (py_min_total _ H2) as [min_h ->].
    destruct (py_max_total _ H2) as [max_h ->]. cbn [bind].
    assert (E : ((max_l - min_l <? 0.01) && (max_w - min_w <? 0.01))%float
                = false).
    { destruct Hd as [-> | ->]; [reflexivity | apply andb_false_r]. }
    rewrite E.
    destruct (part_offset py_float self idx "_part_x"); [|discriminate].
    destruct (part_offset py_float self idx "_part_y"); [|discriminate].
    destruct (part_offset py_float self idx "_part_z"); discriminate.
Qed.

End Aggregation.

(* ================================================================== *)
(** ** Mass resolution and the inertial block *)

Section Mass.
Variable py_float : string -> option float.

(** The mass is the value of the primary key, or of the legacy key when
    the primary one compares equal to zero. *)
Lemma init_mass_resolution (content : string) :
  let d := _parse_acf py_float content in
  let primary := get_value d "acf/_m_empty" (Single (AFloat 0)) in
  mass_lb (__init__ py_float content)
  = if eq_zero primary
    then get_value d "_cgpt/0/_w_now" (Single (AFloat 0))
    else primary.
Proof. reflexivity. Qed.

(** With no key that ends in either mass key, the mass is 0.0. *)
Lemma init_mass_absent (content : string) :
  (forall key v, In (key, v) (_parse_acf py_float content) ->
     ~ trailing "acf/_m_empty" key /\ ~ trailing "_cgpt/0/_w_now" key) ->
  mass_lb (__init__ py_float content) = Single (AFloat 0).
Proof.
  intros H. rewrite init_mass_resolution. cbv zeta.
  rewrite (get_value_no_match _ "acf/_m_empty")
    by (intros key v Hin; now apply (H key v)).
  simpl. apply get_value_no_match. intros key v Hin. now apply (H key v).
Qed.

End Mass.

(** A mass that is not positive gives the warning and the block of the
    placeholder mass 1.0. *)
Lemma inertial_placeholder (self : Converter) (m : float) :
  mass_lb self = Single (AFloat m) -> (0 <? m)%float = false ->
  generate_inertial_xml self
  = Ok ([WarnNoMass],
        Some {| mass := 1; ixx := 0.05; iyy := 0.05; izz := 0.05 |}).
Proof.
  intros Hm Hpos. unfold generate_inertial_xml. now rewrite Hm, Hpos.
Qed.

(** A positive mass is converted and printed, and no block is returned. *)
Lemma inertial_positive_mass (self : Converter) (m : float) :
  mass_lb self = Single (AFloat m) -> (0 <? m)%float = true ->
  generate_inertial_xml self
  = Ok ([InfoMass m (m * LB_TO_KG self)%float], None).
Proof.
  intros Hm Hpos. unfold generate_inertial_xml. now rewrite Hm, Hpos.
Qed.

(** C1, on the input whose only mass is the legacy key with 27.0: the mass
    is resolved to 27.0 and converted to 27.0 * 0.453592 for the message,
    and [generate_inertial_xml] returns no inertial block. *)
Theorem inertial_legacy_mass_lost :
  let self := __init__ Example.decimal_float Example.legacy_mass_text in
  data self = [("_cgpt/0/_w_now", Single (AFloat 27))]
  /\ mass_lb self = Single (AFloat 27)
  /\ generate_inertial_xml self
     = Ok ([InfoMass 27 (27 * 0.453592)%float], None).
Proof. cbv zeta. repeat split; vm_compute; reflexivity. Qed.

(** With both mass keys absent the block of the placeholder mass comes
    with the warning. *)
Example inertial_no_mass :
  generate_inertial_xml (__init__ Example.decimal_float "# no mass")
  = Ok ([WarnNoMass],
        Some {| mass := 1; ixx := 0.05; iyy := 0.05; izz := 0.05 |}).
Proof. vm_compute. reflexivity. Qed.

(** A mass that is a word makes [generate_inertial_xml] raise. *)
Example inertial_word_mass :
  generate_inertial_xml (__init__ Example.decimal_float "P acf/_m_empty heavy")
  = Raise TypeError.
Proof. vm_compute. reflexivity. Qed.

(* ================================================================== *)
(** ** Tolerance of the scan and the empty result *)

Section Tolerance.
Variable py_float : string -> option float.

Lemma emit_parts_all_skipped (self : Converter) (items : list (N * Bounds)) :
  (forall idx b, In (idx, b) items ->
     emit_part py_float self idx b = Ok None) ->
  forall acc, emit_parts py_float self items acc = Ok acc.
Proof.
  induction items as [|[idx b] rest IH]; intros H acc; simpl; [reflexivity|].
  rewrite (H idx b) by now left. cbn [bind].
  apply IH. intros idx' b' Hin. apply H. now right.
Qed.

(** When the scan leaves [parts_bounds] empty, the warning is given and the
    empty string returned. *)
Lemma empty_result_signal (self : Converter) :
  parts_bounds (scan py_float (data self)) = [] ->
  generate_fuselage_collisions py_float self
  = Ok (scan_log (scan py_float (data self))
          ++ [WarnNoPoints (List.length (data self))],
        NoOutput).
Proof.
  intros H. unfold generate_fuselage_collisions. now rewrite H.
Qed.

(** The method returns, and without structural point it emits no record:
    it gives the empty string, or the header with no block. *)
Lemma no_points_no_records (self : Converter) :
  samples py_float (data self) = [] ->
  exists log out,
    generate_fuselage_collisions py_float self = Ok (log, out)
    /\ (out = NoOutput \/ out = Blocks []).
Proof.
  intros Hs. unfold generate_fuselage_collisions.
  destruct (is_nil (parts_bounds (scan py_float (data self)))).
  - eexists. eexists. split; [reflexivity | now left].
  - rewrite emit_parts_all_skipped.
    + cbn [bind]. eexists. eexists. split; [reflexivity | now right].
    + intros idx b Hin.
      destruct (scan_groups py_float (data self)) as [Hnd [_ Hall]].
      apply (dict_In_get N.eqb N.eqb_eq) in Hin; [|assumption].
      specialize (Hall idx). rewrite Hin, Hs in Hall.
      destruct Hall as [H0 _]. unfold emit_part. now rewrite H0.
Qed.

(** Whatever the entry, one iteration of the scan changes the entries of
    [parts_bounds] only by appending coordinates or an empty entry: the
    count never decreases and the log only grows. *)
Lemma scan_entry_monotone (st : ScanState) (kv : string * value) :
  count_points st <= count_points (scan_entry py_float st kv)
  /\ exists more, scan_log (scan_entry py_float st kv) = scan_log st ++ more.
Proof.
  destruct kv as [key val]. unfold scan_entry.
  destruct (PyStr.contains "_geo_xyz" key && PyStr.contains "_part/" key);
    [|split; [lia | exists []; now rewrite app_nil_r]].
  destruct (parse_key py_float key val) as [|e|p a v]; simpl.
  - split; [lia | exists []; now rewrite app_nil_r].
  - split; [lia | now eexists].
  - destruct (append_axis _ a v); simpl;
      (split; [lia|]); [exists []; now rewrite app_nil_r | now eexists].
Qed.

End Tolerance.

(** C8, on the input whose one point has the axis component 5: the key is
    refused with a caught [KeyError], no structural point is counted, but
    the entry of part 0 stays in [parts_bounds]; the method then reports
    0 points in 1 part and returns the header with no block, and the warning
    of the empty result is not given. *)
Theorem scan_refused_axis_no_signal :
  let self := __init__ Example.decimal_float Example.refused_axis_text in
  data self = [("_part/0/_geo_xyz/0,0,5", Single (AFloat 1))]
  /\ samples Example.decimal_float (data self) = []
  /\ parts_bounds (scan Example.decimal_float (data self))
     = [(0%N, empty_bounds)]
  /\ generate_fuselage_collisions Example.decimal_float self
     = Ok ([DebugError "_part/0/_geo_xyz/0,0,5" KeyError; InfoPoints 0 1],
           Blocks []).
Proof. cbv zeta. repeat split; vm_compute; reflexivity. Qed.

(** A key whose axis component is no digit is passed over and leaves no
    entry: the warning is given and the empty string returned. *)
Example scan_malformed_axis :
  generate_fuselage_collisions Example.decimal_float
    (__init__ Example.decimal_float "P _part/0/_geo_xyz/0,0,x 1.0")
  = Ok ([WarnNoPoints 1], NoOutput).
Proof. vm_compute. reflexivity. Qed.

(** A value that is no number is caught inside the scan. *)
Example scan_bad_value :
  generate_fuselage_collisions Example.decimal_float
    (__init__ Example.decimal_float "P _part/0/_geo_xyz/0,0,1 wide")
  = Ok ([DebugError "_part/0/_geo_xyz/0,0,1" ValueError; WarnNoPoints 1],
        NoOutput).
Proof. vm_compute. reflexivity. Qed.

(* ================================================================== *)
(** ** Counterexamples to the claims as first stated *)

(** C9 as stated: a line with a TAB after the marker, a key and a value
    begins with the marker followed by whitespace and has two tokens after
    it, and yet makes no assignment. *)
Lemma line_qualification_tab :
  qualifies_any_whitespace Example.tab_line
  /\ line_entry Example.decimal_float Example.tab_line = None.
Proof.
  split.
  - exists "009"%char, "k 1"%string. repeat split; vm_compute; auto.
  - reflexivity.
Qed.

(** C6 as stated: a part with a NaN sample is emitted with a NaN size,
    which is not strictly positive. *)
Lemma emission_nan_size :
  exists c,
    generate_fuselage_collisions Example.decimal_float
      (__init__ Example.decimal_float Example.nan_text)
    = Ok ([InfoPoints 3 1], Blocks [c])
    /\ positive_size (size c) = false.
Proof.
  eexists. split; [vm_compute; reflexivity | reflexivity].
Qed.

(** C2 as stated: part 0 has samples on the three axes; its bucket of
    axis 0 holds NaN, 0 and 10, which has no least and no greatest sample,
    and the part is emitted with a NaN size on that axis. With the same
    samples stored as 0, NaN, 10 the size on that axis is 10 scaled. *)
Lemma bounding_box_nan_sample :
  exists c1 c2,
    generate_fuselage_collisions Example.decimal_float
      (__init__ Example.decimal_float nan_first_text)
    = Ok ([InfoPoints 7 1], Blocks [c1])
    /\ bucket 0 0 (samples Example.decimal_float
                     (_parse_acf Example.decimal_float nan_first_text))
       = [nan; 0; 10]%float
    /\ (forall lo hi, ~ extrema lo hi [nan; 0; 10]%float)
    /\ is_nan (fst (fst (size c1))) = true
    /\ generate_fuselage_collisions Example.decimal_float
         (__init__ Example.decimal_float nan_second_text)
       = Ok ([InfoPoints 7 1], Blocks [c2])
    /\ bucket 0 0 (samples Example.decimal_float
                     (_parse_acf Example.decimal_float nan_second_text))
       = [0; nan; 10]%float
    /\ fst (fst (size c2)) = 3.048%float.
Proof.
  eexists. eexists.
  split; [vm_compute; reflexivity|].
  split; [vm_compute; reflexivity|].
  split.
  - intros lo hi (Hlo & _ & Hall).
    destruct (Hall nan (or_introl eq_refl)) as [H _].
    simpl in Hlo. destruct Hlo as [<-|[<-|[<-|[]]]]; vm_compute in H;
      discriminate.
  - split; [reflexivity|].
    split; [vm_compute; reflexivity|].
    split; [vm_compute; reflexivity | reflexivity].
Qed.


(* ================================================================== *)
(** ** The theorems at concrete inputs *)

(** Of two keys with the same last segment, the first stored wins. *)
Lemma get_value_lookup_contract_witness :
  get_value Example.twin_store "k" (Single (AFloat 0)) = Single (AFloat 1).
Proof.
  apply (proj1 (proj2 (get_value_lookup_contract Example.twin_store "k"
                         (Single (AFloat 0))))
           [] "x/k" (Single (AFloat 1)) [("y/k", Single (AFloat 2))]).
  - simpl. intros [H|[H|[]]]; discriminate.
  - reflexivity.
  - exists "x/"%string. reflexivity.
  - intros k' v' [].
Defined.


Lemma line_qualification_witness : qualifies "  P k 1 ".
Proof.
  apply (proj1 (proj1 (line_qualification Example.decimal_float "  P k 1 "))).
  exists "k"%string, (Single (AFloat 1)). reflexivity.
Defined.

Lemma convert_coords_formula_witness :
  convert_coords Example.unit_converter 1 2 3
  = ((-3)%float, (-1)%float, 2%float).
Proof.
  apply (proj2 (convert_coords_formula Example.unit_converter 0 0 0)).
  reflexivity.
Defined.

Lemma transform_uniformity_witness :
  fuselage_position Example.unit_converter 3 1 2
  = convert_coords Example.unit_converter 1 2 3.
Proof.
  exact (proj1 (transform_uniformity Example.decimal_float
                  Example.unit_converter) 3%float 1%float 2%float).
Defined.

(** The box of part 0 under the ratios 0.3048 and 0.001, and a part whose
    height 0.1 falls below the floor once scaled. *)
Lemma part_bounding_box_witness :
  generate_fuselage_collisions Example.decimal_float
    (with_ratio Example.box_store 0.3048)
  = Ok ([InfoPoints 6 1], Blocks [Example.box_record])
  /\ generate_fuselage_collisions Example.decimal_float
       (with_ratio Example.box_store 0.001)
     = Ok ([InfoPoints 6 1],
           Blocks [{| part := 0;
                      pose := ((-0.005)%float, (-0.001)%float, 0.0005%float);
                      size := (0.05%float, 0.05%float, 0.05%float) |}])
  /\ exists min_l max_l min_w max_w min_h max_h,
       extrema min_l max_l [10; 0]%float
       /\ extrema min_w max_w [0; 2]%float
       /\ extrema min_h max_h [0.1; 0]%float
       /\ exists c,
            emit_part Example.decimal_float (with_ratio [] 0.3048) 4 thin_bounds
            = Ok (Some c)
            /\ size c
               = ((if ((max_l - min_l) * 0.3048 <? 0.05)%float
                   then 0.05 else (max_l - min_l) * 0.3048)%float,
                  (if ((max_w - min_w) * 0.3048 <? 0.05)%float
                   then 0.05 else (max_w - min_w) * 0.3048)%float,
                  (if ((max_h - min_h) * 0.3048 <? 0.05)%float
                   then 0.05 else (max_h - min_h) * 0.3048)%float)
            /\ size c = (3.048%float, 0.6096%float, 0.05%float).
Proof.
  split; [|split].
  - rewrite (proj1 (proj2 (proj2 (part_bounding_box Example.decimal_float
                                    (with_ratio Example.box_store 0.3048)
                                    0%N empty_bounds)))); reflexivity.
  - rewrite (proj2 (proj2 (proj2 (part_bounding_box Example.decimal_float
                                    (with_ratio Example.box_store 0.001)
                                    0%N empty_bounds)))); reflexivity.
  - destruct (proj1 (part_bounding_box Example.decimal_float
                       (with_ratio [] 0.3048) 4%N thin_bounds))
      as (min_l & max_l & min_w & max_w & min_h & max_h & E0 & E1 & E2 & Hc);
      try discriminate;
      try (intros x Hx; simpl in Hx;
           repeat (destruct Hx as [<-|Hx]; [reflexivity|]); destruct Hx).
    exists min_l, max_l, min_w, max_w, min_h, max_h.
    repeat (split; [assumption|]).
    eexists. split; [reflexivity|]. split; [|reflexivity].
    apply Hc. reflexivity.
Defined.

Lemma emission_invariant_witness :
  List.length [Example.box_record]
  <= List.length (observed_parts Example.decimal_float Example.box_store)
  /\ floored 3.048 /\ floored 0.6096 /\ floored 0.3048.
Proof.
  destruct (emission_invariant Example.decimal_float
              (Example.converter_of Example.box_store (Single (AFloat 0)))
              [InfoPoints 6 1] [Example.box_record])
    as (Hlen & Hsize & _).
  - vm_compute. reflexivity.
  - split; [exact Hlen|].
    apply (Hsize Example.box_record). simpl. now left.
Defined.

Lemma degenerate_part_rejection_witness :
  emit_part Example.decimal_float Example.unit_converter 7 Example.flat_bounds
  = Ok None
  /\ emit_part Example.decimal_float Example.unit_converter 7 Example.rod_bounds
     <> Ok None.
Proof.
  split.
  - apply (proj1 (degenerate_part_rejection Example.decimal_float
                    Example.unit_converter 7 Example.flat_bounds
                    0 0.001 0 0.001 eq_refl eq_refl eq_refl eq_refl));
      reflexivity.
  - apply (proj2 (degenerate_part_rejection Example.decimal_float
                    Example.unit_converter 7 Example.rod_bounds
                    0 10 1 1 eq_refl eq_refl eq_refl eq_refl)).
    + left. reflexivity.
    + discriminate.
Defined.

(* ================================================================== *)
(** ** More on the parser *)

Lemma all_chars_app_char (p : ascii -> bool) (s : string) (c : ascii) :
  PyStr.all_chars p (s ++ String c "") = PyStr.all_chars p s && p c.
Proof.
  induction s as [|a s IH]; simpl.
  - now rewrite andb_true_r.
  - now rewrite IH, andb_assoc.
Qed.

Lemma split_ws_from_clean (s : string) :
  forall tok t, whitespace_free tok = true ->
    In t (PyStr.split_ws_from tok s) -> whitespace_free t = true.
Proof.
  induction s as [|c r IH]; intros tok t Htok; simpl.
  - destruct (PyStr.is_empty tok); simpl; [tauto|]. now intros [<-|[]].
  - destruct (PyStr.isspace c) eqn:Ec.
    + destruct (PyStr.is_empty tok).
      * now apply IH.
      * intros [<-|H]; [assumption | now apply (IH ""%string)].
    + apply IH. unfold whitespace_free in *.
      now rewrite all_chars_app_char, Htok, Ec.
Qed.

Lemma split_ws_clean (s t : string) :
  In t (PyStr.split_ws s) -> whitespace_free t = true.
Proof. now apply split_ws_from_clean. Qed.

Section ParserFacts.
Variable py_float : string -> option float.

Lemma parse_token_ok (s : string) :
  s <> ""%string -> token_ok py_float (parse_token py_float s).
Proof.
  intros Hs. unfold parse_token.
  destruct (py_float s) as [f|] eqn:E; simpl; [now exists s | now split].
Qed.

(** What a qualifying line assigns, from its tokens. *)
Lemma line_entry_tokens (line rest key v : string) (vs : list string) :
  PyStr.strip line = String "P" (String " " rest) ->
  PyStr.split_ws rest = key :: v :: vs ->
  line_entry py_float line
  = Some (key, match vs with
               | [] => Single (parse_token py_float v)
               | _ => Many (map (parse_token py_float) (v :: vs))
               end).
Proof.
  intros Hstrip Htok. unfold line_entry. rewrite Hstrip.
  cbn [PyStr.is_empty orb]. 
  rewrite (proj2 (startswith_marker _)) by now exists rest.
  cbn [negb]. rewrite split_ws_marker, Htok. simpl.
  now destruct vs.
Qed.

Lemma line_entry_inv (line key : string) (val : value) :
  line_entry py_float line = Some (key, val) ->
  exists rest v vs,
    PyStr.strip line = String "P" (String " " rest)
    /\ PyStr.split_ws rest = key :: v :: vs
    /\ val = match vs with
             | [] => Single (parse_token py_float v)
             | _ => Many (map (parse_token py_float) (v :: vs))
             end.
Proof.
  intros H. pose proof H as H0. unfold line_entry in H0.
  destruct (PyStr.startswith "P " (PyStr.strip line)) eqn:Hsw;
    [|rewrite orb_true_r in H0; discriminate].
  destruct (proj1 (startswith_marker _) Hsw) as [rest Hstrip].
  rewrite Hstrip in H0. cbn [PyStr.is_empty orb negb] in H0.
  rewrite split_ws_marker in H0.
  destruct (PyStr.split_ws rest) as [|k [|v vs]] eqn:Htok; simpl in H0;
    try discriminate.
  rewrite (line_entry_tokens line rest k v vs Hstrip Htok) in H.
  injection H as <- <-. now exists rest, v, vs.
Qed.

End ParserFacts.

Section ParserProperties.
Variable py_float : string -> option float.

Lemma line_entry_ok (line key : string) (val : value) :
  line_entry py_float line = Some (key, val) ->
  key <> ""%string /\ whitespace_free key = true /\ value_ok py_float val.
Proof.
  intros H. destruct (line_entry_inv py_float line key val H)
    as (rest & v & vs & _ & Htok & ->).
  assert (Hin : forall t, In t (key :: v :: vs) -> In t (PyStr.split_ws rest))
    by (now rewrite Htok).
  assert (Htoken : forall t, In t (v :: vs) ->
            token_ok py_float (parse_token py_float t)).
  { intros t Ht. apply parse_token_ok.
    apply (split_ws_nonempty rest). apply Hin. now right. }
  repeat split.
  - apply (split_ws_nonempty rest). apply Hin. now left.
  - apply (split_ws_clean rest). apply Hin. now left.
  - destruct vs as [|w ws]; simpl.
    + apply Htoken. now left.
    + split; [lia|].
      repeat constructor; try (apply Htoken; simpl; tauto).
      apply Forall_forall. intros a Ha. apply in_map_iff in Ha.
      destruct Ha as [t [<- Ht]]. apply Htoken. simpl. tauto.
Qed.

(** X1: every key of a parsed store is a non-empty token without
    whitespace and is stored once; every value is a single token or a list
    of at least two tokens, each a number that [float] read or a word that
    [float] refused. *)
Theorem parse_acf_store_invariant (content : string) :
  NoDup (OrderedDict.keys (_parse_acf py_float content))
  /\ forall key v, In (key, v) (_parse_acf py_float content) ->
       key <> ""%string /\ whitespace_free key = true
       /\ value_ok py_float v.
Proof.
  split; [apply parse_acf_NoDup|].
  unfold _parse_acf.
  assert (H : forall lines d,
            (forall key v, In (key, v) d ->
               key <> ""%string /\ whitespace_free key = true
               /\ value_ok py_float v) ->
            forall key v, In (key, v) (fold_left (parse_line py_float) lines d) ->
              key <> ""%string /\ whitespace_free key = true
              /\ value_ok py_float v).
  { induction lines as [|l r IH]; intros d Hd; simpl; [assumption|].
    apply IH. intros key v Hin. unfold parse_line in Hin.
    destruct (line_entry py_float l) as [[k w]|] eqn:E; [|now apply Hd].
    apply (dict_In_set String.eqb string_eqb_eq) in Hin.
    destruct Hin as [[-> ->]|Hin]; [now apply (line_entry_ok l) | now apply Hd]. }
  apply H. intros key v [].
Qed.

(** X2: a trimmed line [P rest] with fewer than two tokens in [rest] assigns
    nothing; with a key and one value token it assigns that token alone (a
    number when [float] reads it, the token itself otherwise); with more
    value tokens it assigns the list of all of them in order. *)
Theorem line_value_coercion (line rest : string) :
  PyStr.strip line = String "P" (String " " rest) ->
  line_entry py_float line
  = match PyStr.split_ws rest with
    | key :: [v] => Some (key, Single (parse_token py_float v))
    | key :: v :: vs => Some (key, Many (map (parse_token py_float) (v :: vs)))
    | _ => None
    end.
Proof.
  intros Hstrip.
  destruct (PyStr.split_ws rest) as [|key [|v vs]] eqn:Htok.
  - unfold line_entry. rewrite Hstrip. cbn [PyStr.is_empty orb].
    rewrite (proj2 (startswith_marker _)) by now exists rest.
    cbn [negb]. now rewrite split_ws_marker, Htok.
  - unfold line_entry. rewrite Hstrip. cbn [PyStr.is_empty orb].
    rewrite (proj2 (startswith_marker _)) by now exists rest.
    cbn [negb]. now rewrite split_ws_marker, Htok.
  - rewrite (line_entry_tokens py_float line rest key v vs Hstrip Htok).
    now destruct vs.
Qed.

Lemma fold_parse_keeps (lines : list string) (key : string) (v : value) :
  (forall l v', In l lines -> line_entry py_float l <> Some (key, v')) ->
  forall d, OrderedDict.get String.eqb d key = Some v ->
    OrderedDict.get String.eqb (fold_left (parse_line py_float) lines d) key
    = Some v.
Proof.
  induction lines as [|l r IH]; intros Hno d Hd; simpl; [assumption|].
  apply IH; [intros l' v' Hl'; apply Hno; now right|].
  unfold parse_line. destruct (line_entry py_float l) as [[k w]|] eqn:E;
    [|assumption].
  rewrite (dict_get_set_other String.eqb string_eqb_eq); [assumption|].
  intros ->. apply (Hno l w); [now left | assumption].
Qed.

(** X3: the last line that assigns a key wins: when the line [l] assigns
    [v] to [key] and no later line assigns [key], looking [key] up in the
    parsed store returns [v], whatever earlier lines assigned. *)
Theorem parse_last_write_wins (content : string) (before after : list string)
  (l key : string) (v default : value) :
  PyStr.split_on newline (PyStr.strip content) = before ++ l :: after ->
  line_entry py_float l = Some (key, v) ->
  (forall l' v', In l' after -> line_entry py_float l' <> Some (key, v')) ->
  get_value (_parse_acf py_float content) key default = v.
Proof.
  intros Hlines Hl Hafter. unfold _parse_acf. rewrite Hlines.
  rewrite fold_left_app. simpl. unfold get_value.
  rewrite (fold_parse_keeps after key v Hafter); [reflexivity|].
  unfold parse_line at 1. rewrite Hl.
  apply (dict_get_set_same String.eqb string_eqb_eq).
Qed.

End ParserProperties.

(** X4: a lookup returns the default or a stored value whose key ends with
    the suffix asked for. *)
Theorem get_value_sound (d : store) (key_suffix : string) (default : value) :
  get_value d key_suffix default = default
  \/ exists key, In (key, get_value d key_suffix default) d
                 /\ trailing key_suffix key.
Proof.
  unfold get_value.
  destruct (OrderedDict.get String.eqb d key_suffix) as [v|] eqn:E.
  - right. exists key_suffix. split.
    + now apply (dict_get_In String.eqb string_eqb_eq).
    + now exists ""%string.
  - induction d as [|[k w] r IH]; simpl; [now left|].
    simpl in E. destruct (String.eqb k key_suffix); [discriminate|].
    destruct (PyStr.endswith key_suffix k) eqn:Ek.
    + right. exists k. split; [now left | now apply endswith_trailing].
    + destruct (IH E) as [Hd|[key [Hin Ht]]]; [now left|].
      right. exists key. split; [now right | assumption].
Qed.

(* ================================================================== *)
(** ** More on the aggregation *)

Lemma first_endswith_In (d : store) (key_suffix : string) (v : value) :
  first_endswith d key_suffix = Some v -> exists key, In (key, v) d.
Proof.
  induction d as [|[k w] r IH]; simpl; [discriminate|].
  destruct (PyStr.endswith key_suffix k).
  - intros [= <-]. exists k. now left.
  - intros H. destruct (IH H) as [key Hin]. exists key. now right.
Qed.

Lemma get_value_number (d : store) (key_suffix : string) (f0 : float) :
  all_numbers d ->
  exists f, get_value d key_suffix (Single (AFloat f0)) = Single (AFloat f).
Proof.
  intros Hd. unfold get_value.
  destruct (OrderedDict.get String.eqb d key_suffix) as [v|] eqn:E.
  - apply (dict_get_In String.eqb string_eqb_eq) in E. now apply (Hd _ _ E).
  - destruct (first_endswith d key_suffix) as [v|] eqn:E'.
    + destruct (first_endswith_In _ _ _ E') as [key Hin]. now apply (Hd _ _ Hin).
    + now exists f0.
Qed.

Section MoreAggregation.
Variable py_float : string -> option float.

Lemma emit_parts_flat (self : Converter) (items : list (N * Bounds)) :
  forall acc recs,
    emit_parts py_float self items acc = Ok recs ->
    recs = acc ++ emitted_parts py_float self items.
Proof.
  induction items as [|[idx b] rest IH]; intros acc recs; simpl.
  - intros [= <-]. now rewrite app_nil_r.
  - destruct (emit_part py_float self idx b) as [[c|]|]; cbn [bind];
      [| |discriminate]; intros H; apply IH in H; subst.
    + now rewrite <- app_assoc.
    + reflexivity.
Qed.

Lemma emit_parts_raises (self : Converter) (items : list (N * Bounds))
  (idx : N) (b : Bounds) (e : exn) :
  In (idx, b) items -> emit_part py_float self idx b = Raise e ->
  forall acc, exists e', emit_parts py_float self items acc = Raise e'.
Proof.
  induction items as [|[i0 b0] rest IH]; intros Hin He acc; [destruct Hin|].
  simpl. destruct Hin as [[= -> ->]|Hin].
  - rewrite He. now exists e.
  - destruct (emit_part py_float self i0 b0) as [r|e0]; cbn [bind].
    + now apply IH.
    + now exists e0.
Qed.

Lemma part_offset_number (self : Converter) (idx : N) (name : string) :
  all_numbers (data self) ->
  exists f, part_offset py_float self idx name = Ok f.
Proof.
  intros H. unfold part_offset.
  destruct (get_value_number (data self) (offset_key idx name) 0 H) as [f ->].
  now exists f.
Qed.

(** X5: after the scan the keys of [parts_bounds] are distinct, every entry
    holds on each axis exactly the coordinates of the structural points of
    its part, in the order of the store, every part with a point has an
    entry, and [count_points] is the number of points. *)
Theorem scan_partitions_points (d : store) :
  let st := scan py_float d in
  NoDup (OrderedDict.keys (parts_bounds st))
  /\ count_points st = List.length (samples py_float d)
  /\ (forall idx b, In (idx, b) (parts_bounds st) ->
        axis0 b = bucket idx 0 (samples py_float d)
        /\ axis1 b = bucket idx 1 (samples py_float d)
        /\ axis2 b = bucket idx 2 (samples py_float d))
  /\ (forall p a v, In (p, a, v) (samples py_float d) ->
        In p (OrderedDict.keys (parts_bounds st))).
Proof.
  cbv zeta. destruct (scan_groups py_float d) as [Hnd [Hcnt Hall]].
  repeat split; try assumption.
  - apply (dict_In_get N.eqb N.eqb_eq) in H; [|assumption].
    specialize (Hall idx). rewrite H in Hall. apply Hall.
  - apply (dict_In_get N.eqb N.eqb_eq) in H; [|assumption].
    specialize (Hall idx). rewrite H in Hall. apply Hall.
  - apply (dict_In_get N.eqb N.eqb_eq) in H; [|assumption].
    specialize (Hall idx). rewrite H in Hall. apply Hall.
  - intros p a v Hin. specialize (Hall p).
    destruct (OrderedDict.get N.eqb (parts_bounds (scan py_float d)) p) eqn:E.
    + apply (dict_mem_In N.eqb N.eqb_eq). unfold OrderedDict.mem. now rewrite E.
    + exfalso. apply Hall. apply in_map_iff. now exists (p, a, v).
Qed.

(** X6: when the method returns blocks, they are the records of the
    entries of [parts_bounds] whose iteration emits one, in the order of
    [parts_bounds]; no two records belong to the same part. *)
Theorem records_follow_parts (self : Converter) (log : list diag)
  (recs : list CollisionRecord) :
  generate_fuselage_collisions py_float self = Ok (log, Blocks recs) ->
  recs = emitted_parts py_float self
           (parts_bounds (scan py_float (data self)))
  /\ NoDup (map part recs)
  /\ log = scan_log (scan py_float (data self))
           ++ [InfoPoints (count_points (scan py_float (data self)))
                 (List.length (parts_bounds (scan py_float (data self))))].
Proof.
  intros Hgen. pose proof (generate_blocks py_float self log recs Hgen) as Hrun.
  split; [|split].
  - now apply emit_parts_flat in Hrun.
  - destruct (emit_parts_spec py_float self _ [] recs Hrun)
      as (new & -> & _ & Hnd & _).
    apply Hnd. apply (scan_groups py_float (data self)).
  - unfold generate_fuselage_collisions in Hgen.
    destruct (is_nil (parts_bounds (scan py_float (data self))));
      [discriminate|].
    destruct (emit_parts py_float self _ []); cbn [bind] in Hgen;
      [|discriminate].
    now injection Hgen as <- _.
Qed.

(** X7: a store without structural point yields no record: the method
    returns the empty string or the header alone, and does not raise. *)
Theorem no_points_no_blocks (self : Converter) :
  samples py_float (data self) = [] ->
  exists log out,
    generate_fuselage_collisions py_float self = Ok (log, out)
    /\ (out = NoOutput \/ out = Blocks []).
Proof.
  intros Hs. unfold generate_fuselage_collisions.
  destruct (is_nil (parts_bounds (scan py_float (data self)))).
  - eexists. eexists. split; [reflexivity | now left].
  - rewrite emit_parts_all_skipped.
    + cbn [bind]. eexists. eexists. split; [reflexivity | now right].
    + intros idx b Hin.
      destruct (scan_groups py_float (data self)) as [Hnd [_ Hall]].
      apply (dict_In_get N.eqb N.eqb_eq) in Hin; [|assumption].
      specialize (Hall idx). rewrite Hin, Hs in Hall.
      destruct Hall as [H0 _]. unfold emit_part. now rewrite H0.
Qed.

(** X8: on a store whose values are all single numbers the method never
    raises. *)
Theorem aggregation_total_on_numbers (self : Converter) :
  all_numbers (data self) ->
  exists log out, generate_fuselage_collisions py_float self = Ok (log, out).
Proof.
  intros Hd. unfold generate_fuselage_collisions.
  destruct (is_nil (parts_bounds (scan py_float (data self))));
    [now eexists; eexists|].
  assert (Hemit : forall idx b, exists r, emit_part py_float self idx b = Ok r).
  { intros idx b. unfold emit_part.
    destruct (is_nil (axis0 b) || is_nil (axis1 b) || is_nil (axis2 b)) eqn:En;
      [now eexists|].
    apply orb_false_elim in En. destruct En as [En N2].
    apply orb_false_elim in En. destruct En as [N0 N1].
    apply is_nil_false in N0, N1, N2.
    destruct (py_min_total _ N0) as [? ->]. destruct (py_max_total _ N0) as [? ->].
    destruct (py_min_total _ N1) as [? ->]. destruct (py_max_total _ N1) as [? ->].
    destruct (py_min_total _ N2) as [? ->]. destruct (py_max_total _ N2) as [? ->].
    cbn [bind]. destruct (_ && _); [now eexists|].
    destruct (part_offset_number self idx "_part_x" Hd) as [? ->].
    destruct (part_offset_number self idx "_part_y" Hd) as [? ->].
    destruct (part_offset_number self idx "_part_z" Hd) as [? ->].
    cbn [bind]. now eexists. }
  assert (Hrun : forall items acc,
            exists recs, emit_parts py_float self items acc = Ok recs).
  { induction items as [|[idx b] rest IH]; intros acc; simpl; [now eexists|].
    destruct (Hemit idx b) as [r ->]. cbn [bind]. apply IH. }
  destruct (Hrun (parts_bounds (scan py_float (data self))) []) as [recs ->].
  cbn [bind]. now eexists; eexists.
Qed.

(** X9: the offsets are not read inside the [try]: when a part has samples
    on the three axes, is not degenerate and one of its offsets cannot be
    made a float, the whole method raises and returns no block. *)
Theorem offset_failure_aborts (self : Converter) (idx : N) (b : Bounds)
  (min_l max_l min_w max_w : float) (name : string) (e : exn) :
  In (idx, b) (parts_bounds (scan py_float (data self))) ->
  py_min (axis0 b) = Ok min_l -> py_max (axis0 b) = Ok max_l ->
  py_min (axis1 b) = Ok min_w -> py_max (axis1 b) = Ok max_w ->
  axis2 b <> [] ->
  ((max_l - min_l <? 0.01) && (max_w - min_w <? 0.01))%float = false ->
  In name ["_part_x"; "_part_y"; "_part_z"] ->
  part_offset py_float self idx name = Raise e ->
  exists e', generate_fuselage_collisions py_float self = Raise e'.
Proof.
  intros Hin Hmin_l Hmax_l Hmin_w Hmax_w H2 Hdeg Hname Hoff.
  assert (He : exists e0, emit_part py_float self idx b = Raise e0).
  { unfold emit_part.
    apply py_min_nonempty in Hmin_l as N0. apply py_min_nonempty in Hmin_w as N1.
    apply is_nil_false in N0, N1. apply is_nil_false in H2 as N2.
    rewrite N0, N1, N2. cbn [orb].
    rewrite Hmin_l, Hmax_l, Hmin_w, Hmax_w. cbn [bind].
    destruct (py_min_total _ H2) as [min_h ->].
    destruct (py_max_total _ H2) as [max_h ->]. cbn [bind]. rewrite Hdeg.
    destruct Hname as [<-|[<-|[<-|[]]]].
    - rewrite Hoff. now eexists.
    - destruct (part_offset py_float self idx "_part_x"); cbn [bind];
        [rewrite Hoff|]; now eexists.
    - destruct (part_offset py_float self idx "_part_x"); cbn [bind];
        [|now eexists].
      destruct (part_offset py_float self idx "_part_y"); cbn [bind];
        [rewrite Hoff|]; now eexists. }
  destruct He as [e0 He]. unfold generate_fuselage_collisions.
  destruct (parts_bounds (scan py_float (data self))) as [|x r] eqn:Epb;
    [destruct Hin|].
  cbn [is_nil].
  destruct (emit_parts_raises self (x :: r) idx b e0 Hin He []) as [e' ->].
  now exists e'.
Qed.

End MoreAggregation.

(* ================================================================== *)
(** ** The generators of the engines, the wings and the landing gear *)

Lemma run_loop_done {A : Type} (body : N -> outcome (option A))
  (indices : list N) :
  forall acc recs,
    run_loop body indices acc = Done recs ->
    recs = acc ++ emitted body indices.
Proof.
  induction indices as [|i rest IH]; intros acc recs; simpl.
  - intros [= <-]. now rewrite app_nil_r.
  - unfold emitted. simpl. fold (emitted body rest).
    destruct (body i) as [[c|]|]; cbn [and_then]; [| |discriminate];
      intros H; apply IH in H; subst.
    + now rewrite <- app_assoc.
    + reflexivity.
Qed.

Lemma run_loop_total {A : Type} (body : N -> outcome (option A))
  (indices : list N) :
  (forall i, In i indices -> exists r, body i = Done r) ->
  forall acc, run_loop body indices acc = Done (acc ++ emitted body indices).
Proof.
  induction indices as [|i rest IH]; intros Hall acc; simpl.
  - now rewrite app_nil_r.
  - unfold emitted. simpl. fold (emitted body rest).
    destruct (Hall i) as [r ->]; [now left|]. cbn [and_then].
    rewrite IH by (intros j Hj; apply Hall; now right).
    destruct r; [now rewrite <- app_assoc | reflexivity].
Qed.

Lemma run_loop_throws {A : Type} (body : N -> outcome (option A))
  (indices : list N) (i : N) (e : py_error) :
  In i indices -> body i = Throw e ->
  forall acc, exists e', run_loop body indices acc = Throw e'.
Proof.
  induction indices as [|j rest IH]; intros Hin He acc; [destruct Hin|].
  simpl. destruct Hin as [->|Hin].
  - rewrite He. now exists e.
  - destruct (body j) as [r|e0]; cbn [and_then]; [now apply IH | now exists e0].
Qed.

Lemma emitted_In {A : Type} (body : N -> outcome (option A))
  (indices : list N) (c : A) :
  In c (emitted body indices)
  <-> exists i, In i indices /\ body i = Done (Some c).
Proof.
  unfold emitted. rewrite in_flat_map. split.
  - intros [i [Hi Hc]]. exists i. split; [assumption|].
    destruct (body i) as [[c'|]|]; simpl in Hc; try tauto.
    destruct Hc as [->|[]]. reflexivity.
  - intros [i [Hi Hb]]. exists i. split; [assumption|]. rewrite Hb. now left.
Qed.

Lemma emitted_all {A : Type} (body : N -> outcome (option A))
  (f : N -> A) (indices : list N) :
  (forall i, In i indices -> body i = Done (Some (f i))) ->
  emitted body indices = map f indices.
Proof.
  induction indices as [|i rest IH]; intros H; [reflexivity|].
  unfold emitted. simpl. fold (emitted body rest).
  rewrite (H i) by now left. simpl. f_equal. apply IH.
  intros j Hj. apply H. now right.
Qed.

Lemma py_range_In (count : Z) (i : N) :
  In i (py_range count) <-> (Z.of_N i < count)%Z.
Proof.
  unfold py_range. rewrite in_map_iff. split.
  - intros [n [<- Hn]]. apply in_seq in Hn. lia.
  - intros H. exists (N.to_nat i). rewrite N2Nat.id. split; [reflexivity|].
    apply in_seq. lia.
Qed.

Lemma trailing_app (a b key : string) :
  trailing (a ++ b) key -> trailing b key.
Proof.
  intros [p ->]. exists (p ++ a)%string.
  induction p as [|c p IH]; simpl; [reflexivity | now rewrite IH].
Qed.

Lemma get_value_unset (d : store) (a b : string) (default : value) :
  (forall key v, In (key, v) d -> ~ trailing b key) ->
  get_value d (a ++ b) default = default.
Proof.
  intros H. apply get_value_no_match. intros key v Hin Ht.
  apply (H key v Hin). now apply (trailing_app a).
Qed.

Lemma int_of_float_finite (f : float) :
  is_nan f = false -> is_infinity f = false -> exists z, int_of_float f = Done z.
Proof.
  intros Hnan Hinf. unfold int_of_float.
  apply is_nan_false in Hnan. unfold is_infinity in Hinf.
  rewrite eqb_spec, abs_spec in Hinf.
  destruct (Prim2SF f) as [s|s| |s m e].
  - now exists 0%Z.
  - exfalso. destruct s; discriminate.
  - congruence.
  - eexists. reflexivity.
Qed.

Lemma run_loop_done_all {A : Type} (body : N -> outcome (option A))
  (indices : list N) :
  forall acc recs,
    run_loop body indices acc = Done recs ->
    forall i, In i indices -> exists r, body i = Done r.
Proof.
  induction indices as [|j rest IH]; intros acc recs H i Hi; [destruct Hi|].
  simpl in H. destruct (body j) as [r|] eqn:Ej; cbn [and_then] in H;
    [|discriminate].
  destruct Hi as [<-|Hi]; [now exists r | now apply (IH _ _ H)].
Qed.

Lemma get_value_idem (d : store) (key_suffix : string) (default : value) :
  get_value d key_suffix (get_value d key_suffix default)
  = get_value d key_suffix default.
Proof.
  unfold get_value.
  destruct (OrderedDict.get String.eqb d key_suffix); [reflexivity|].
  now destruct (first_endswith d key_suffix).
Qed.

Lemma get_value_unset2 (d : store) (a b c : string) (default : value) :
  (forall key v, In (key, v) d -> ~ trailing c key) ->
  get_value d (a ++ b ++ c) default = default.
Proof.
  intros H. apply get_value_no_match. intros key v Hin Ht.
  apply (H key v Hin). apply (trailing_app b). now apply (trailing_app a).
Qed.

Lemma as_number_inv (v : value) (f : float) :
  as_number v = Done f <-> v = Single (AFloat f).
Proof.
  split.
  - destruct v as [[g|s]|l]; simpl; try discriminate. now intros [= ->].
  - now intros ->.
Qed.

Lemma find_value_get (d : store) (key_suffix : string) (default : value) :
  get_value d key_suffix default
  = match find_value d key_suffix with
    | Some v => v
    | None => default
    end.
Proof.
  unfold get_value, find_value.
  now destruct (OrderedDict.get String.eqb d key_suffix).
Qed.

Lemma find_value_In (d : store) (key_suffix : string) (v : value) :
  find_value d key_suffix = Some v -> exists key, In (key, v) d.
Proof.
  unfold find_value.
  destruct (OrderedDict.get String.eqb d key_suffix) as [w|] eqn:E.
  - intros [= <-]. exists key_suffix.
    now apply (dict_get_In String.eqb string_eqb_eq).
  - apply first_endswith_In.
Qed.

Section GeneratorFacts.
Variable py_int : string -> option Z.

Lemma gear_body_inv (self : Converter) (i : N) (c : GearRecord) :
  gear_body py_int self i = Done (Some c) ->
  exists t lat vert long radius,
    int_of py_int (get_value_or (data self)
                     (slot_key "_gear/" i "/_gear_type") (PyInt 0)) = Done t
    /\ t <> 0%Z
    /\ get_value (data self) (slot_key "_gear/" i "/_gear_x")
         (Single (AFloat 0)) = Single (AFloat lat)
    /\ get_value (data self) (slot_key "_gear/" i "/_gear_y")
         (Single (AFloat 0)) = Single (AFloat vert)
    /\ get_value (data self) (slot_key "_gear/" i "/_gear_z")
         (Single (AFloat 0)) = Single (AFloat long)
    /\ get_value (data self) (slot_key "_gear/" i "/_tire_radius")
         (Single (AFloat 0.1)) = Single (AFloat radius)
    /\ c = {| gear_index := i;
              gear_pose := convert_coords self lat vert long;
              gear_radius := (radius * FT_TO_M self)%float |}.
Proof.
  unfold gear_body, slot_key.
  destruct (int_of py_int _) as [t|] eqn:Et; cbn [and_then]; [|discriminate].
  destruct (Z.eqb_spec t 0) as [->|Hne]; [discriminate|].
  destruct (as_number (get_value _ (_ ++ "/_tire_radius") _)) as [radius|] eqn:Er;
    cbn [and_then]; [|discriminate].
  destruct (as_number (get_value _ (_ ++ "/_gear_z") _)) as [long|] eqn:Ez;
    cbn [and_then]; [|discriminate].
  destruct (as_number (get_value _ (_ ++ "/_gear_x") _)) as [lat|] eqn:Ex;
    cbn [and_then]; [|discriminate].
  destruct (as_number (get_value _ (_ ++ "/_gear_y") _)) as [vert|] eqn:Ey;
    cbn [and_then]; [|discriminate].
  intros [= <-]. apply as_number_inv in Er, Ez, Ex, Ey.
  exists t, lat, vert, long, radius. now repeat split.
Qed.

Lemma generate_gear_inv (self : Converter) (recs : list GearRecord) :
  generate_gear_xml py_int self = Done (HeaderAnd recs) ->
  exists count,
    int_of py_int (get_value_or (data self) "_gear/count" (PyInt 0))
    = Done count
    /\ count <> 0%Z
    /\ recs = emitted (gear_body py_int self) (py_range count).
Proof.
  unfold generate_gear_xml.
  destruct (int_of py_int _) as [count|]; cbn [and_then]; [|discriminate].
  destruct (Z.eqb_spec count 0) as [->|Hne]; [discriminate|].
  destruct (run_loop _ _ _) as [r|] eqn:Er; cbn [and_then]; [|discriminate].
  intros [= <-]. apply run_loop_done in Er. exists count. now repeat split.
Qed.

(** X10: every gear block comes from a slot below the count whose type is
    not 0; its pose is [convert_coords] of the stored (x, y, z) of the slot,
    0.0 where a coordinate is absent, and its radius the stored tire radius,
    0.1 when absent, times the length ratio. *)
Theorem gear_records_transformed (self : Converter) (recs : list GearRecord)
  (c : GearRecord) :
  generate_gear_xml py_int self = Done (HeaderAnd recs) ->
  In c recs ->
  exists count t lat vert long radius,
    int_of py_int (get_value_or (data self) "_gear/count" (PyInt 0))
    = Done count
    /\ (Z.of_N (gear_index c) < count)%Z
    /\ int_of py_int (get_value_or (data self)
                        (slot_key "_gear/" (gear_index c) "/_gear_type")
                        (PyInt 0)) = Done t
    /\ t <> 0%Z
    /\ get_value (data self) (slot_key "_gear/" (gear_index c) "/_gear_x")
         (Single (AFloat 0)) = Single (AFloat lat)
    /\ get_value (data self) (slot_key "_gear/" (gear_index c) "/_gear_y")
         (Single (AFloat 0)) = Single (AFloat vert)
    /\ get_value (data self) (slot_key "_gear/" (gear_index c) "/_gear_z")
         (Single (AFloat 0)) = Single (AFloat long)
    /\ get_value (data self) (slot_key "_gear/" (gear_index c) "/_tire_radius")
         (Single (AFloat 0.1)) = Single (AFloat radius)
    /\ gear_pose c = convert_coords self lat vert long
    /\ gear_radius c = (radius * FT_TO_M self)%float.
Proof.
  intros Hgen Hc.
  destruct (generate_gear_inv self recs Hgen) as (count & Hcount & _ & ->).
  apply emitted_In in Hc. destruct Hc as [i [Hi Hb]].
  apply py_range_In in Hi.
  destruct (gear_body_inv self i c Hb)
    as (t & lat & vert & long & radius & Ht & Hne & Hx & Hy & Hz & Hr & ->).
  exists count, t, lat, vert, long, radius. simpl. now repeat split.
Qed.

(** X11: a gear slot whose type is absent or truncates to 0 is passed over
    before its coordinates are read: it gives no block and cannot make the
    method raise, whatever is stored for its coordinates. *)
Theorem gear_empty_slot_skipped (self : Converter) (i : N) :
  int_of py_int (get_value_or (data self)
                   (slot_key "_gear/" i "/_gear_type") (PyInt 0)) = Done 0%Z ->
  gear_body py_int self i = Done None
  /\ forall recs, generate_gear_xml py_int self = Done (HeaderAnd recs) ->
       forall c, In c recs -> gear_index c <> i.
Proof.
  intros Ht. split.
  - unfold gear_body. unfold slot_key in Ht. now rewrite Ht.
  - intros recs Hgen c Hc Heq.
    destruct (generate_gear_inv self recs Hgen) as (count & _ & _ & ->).
    apply emitted_In in Hc. destruct Hc as [j [_ Hb]].
    destruct (gear_body_inv self j c Hb)
      as (t & lat & vert & long & radius & Ht' & Hne & _ & _ & _ & _ & ->).
    simpl in Heq. subst j. congruence.
Qed.

Lemma wing_body_inv (self : Converter) (i : N) (c : WingRecord) :
  wing_body self i = Done (Some c) ->
  exists semi root tip,
    get_value (data self) (slot_key "_wing/" i "/_semilen_SEG")
      (Single (AFloat 0)) = Single (AFloat semi)
    /\ get_value (data self) (slot_key "_wing/" i "/_Croot")
         (Single (AFloat 0)) = Single (AFloat root)
    /\ get_value (data self) (slot_key "_wing/" i "/_Ctip")
         (Single (AFloat 0)) = Single (AFloat tip)
    /\ ((semi =? 0) && (root =? 0))%float = false
    /\ wing_index c = i
    /\ (wing_box c, wing_suffix c, wing_color c)
       = wing_shape self semi root tip.
Proof.
  unfold wing_body, slot_key.
  destruct (eq_zero _ && eq_zero _) eqn:Ez; [discriminate|].
  destruct (as_number (get_value _ (_ ++ "/_semilen_SEG") _)) as [semi|] eqn:Es;
    cbn [and_then]; [|discriminate].
  destruct (as_number (get_value _ (_ ++ "/_Croot") _)) as [root|] eqn:Er;
    cbn [and_then]; [|discriminate].
  destruct (as_number (get_value _ (_ ++ "/_Ctip") _)) as [tip|] eqn:Et;
    cbn [and_then]; [|discriminate].
  intros [= <-]. apply as_number_inv in Es, Er, Et.
  rewrite Es, Er in Ez. simpl in Ez.
  exists semi, root, tip. now repeat split.
Qed.

Lemma generate_wings_inv (self : Converter) (recs : list WingRecord) :
  generate_wings_xml py_int self = Done (HeaderAnd recs) ->
  exists count,
    int_of py_int (get_value_or (data self) "_wing/count" (PyInt 0))
    = Done count
    /\ count <> 0%Z
    /\ recs = emitted (wing_body self) (py_range count).
Proof.
  unfold generate_wings_xml.
  destruct (int_of py_int _) as [count|]; cbn [and_then]; [|discriminate].
  destruct (Z.eqb_spec count 0) as [->|Hne]; [discriminate|].
  destruct (run_loop _ _ _) as [r|] eqn:Er; cbn [and_then]; [|discriminate].
  intros [= <-]. apply run_loop_done in Er. exists count. now repeat split.
Qed.

(** X12: every wing block has a strictly positive depth (the mean chord
    times the length ratio, or 0.05 when that is not positive, NaN
    included), the height 0.005 and the half span times the length ratio as
    width; it is a red prop_blade when the width is below 0.5 and a grey
    wing_surface otherwise. *)
Theorem wing_records_shape (self : Converter) (recs : list WingRecord)
  (c : WingRecord) :
  generate_wings_xml py_int self = Done (HeaderAnd recs) ->
  In c recs ->
  exists semi root tip,
    get_value (data self) (slot_key "_wing/" (wing_index c) "/_semilen_SEG")
      (Single (AFloat 0)) = Single (AFloat semi)
    /\ get_value (data self) (slot_key "_wing/" (wing_index c) "/_Croot")
         (Single (AFloat 0)) = Single (AFloat root)
    /\ get_value (data self) (slot_key "_wing/" (wing_index c) "/_Ctip")
         (Single (AFloat 0)) = Single (AFloat tip)
    /\ (wing_box c, wing_suffix c, wing_color c)
       = wing_shape self semi root tip
    /\ (0 <? fst (fst (wing_box c)))%float = true
    /\ snd (wing_box c) = 0.005%float
    /\ snd (fst (wing_box c)) = (semi * FT_TO_M self)%float
    /\ ((wing_suffix c = "prop_blade"%string /\ wing_color c = "1 0 0 1"%string
         /\ (semi * FT_TO_M self <? 0.5)%float = true)
        \/ (wing_suffix c = "wing_surface"%string
            /\ wing_color c = "0.5 0.5 0.5 1"%string
            /\ (semi * FT_TO_M self <? 0.5)%float = false)).
Proof.
  intros Hgen Hc.
  destruct (generate_wings_inv self recs Hgen) as (count & _ & _ & ->).
  apply emitted_In in Hc. destruct Hc as [i [_ Hb]].
  destruct (wing_body_inv self i c Hb)
    as (semi & root & tip & Hs & Hr & Ht & _ & Hi & Hshape).
  rewrite Hi. exists semi, root, tip.
  repeat (split; [assumption|]).
  unfold wing_shape in Hshape. injection Hshape as Hbox Hsuf Hcol.
  rewrite Hbox, Hsuf, Hcol. cbn [fst snd].
  split; [|split; [reflexivity|split; [reflexivity|]]].
  - destruct (0 <? (root + tip) / 2 * FT_TO_M self)%float eqn:E;
      [assumption | reflexivity].
  - destruct (semi * FT_TO_M self <? 0.5)%float; [left | right];
      now repeat split.
Qed.

(** X13: a wing slot whose half span and root chord both compare equal to
    0 (as they do when absent) is passed over before any arithmetic: it gives
    no block whatever its tip chord holds. *)
Theorem wing_empty_slot_skipped (self : Converter) (i : N) :
  eq_zero (get_value (data self) (slot_key "_wing/" i "/_semilen_SEG")
             (Single (AFloat 0))) = true ->
  eq_zero (get_value (data self) (slot_key "_wing/" i "/_Croot")
             (Single (AFloat 0))) = true ->
  wing_body self i = Done None
  /\ forall recs, generate_wings_xml py_int self = Done (HeaderAnd recs) ->
       forall c, In c recs -> wing_index c <> i.
Proof.
  intros Hs Hr. split.
  - unfold wing_body. unfold slot_key in Hs, Hr. now rewrite Hs, Hr.
  - intros recs Hgen c Hc Heq.
    destruct (generate_wings_inv self recs Hgen) as (count & _ & _ & ->).
    apply emitted_In in Hc. destruct Hc as [j [_ Hb]].
    destruct (wing_body_inv self j c Hb)
      as (semi & root & tip & Hs' & Hr' & _ & Hz & Hi & _).
    rewrite Hi in Heq. subst j. rewrite Hs' in Hs. rewrite Hr' in Hr.
    simpl in Hs, Hr. now rewrite Hs, Hr in Hz.
Qed.

Lemma int_of_lookup_finite (d : store) (key_suffix : string) (z0 : Z) :
  all_finite_numbers d ->
  exists z, int_of py_int (get_value_or d key_suffix (PyInt z0)) = Done z.
Proof.
  intros Hd. unfold get_value_or.
  destruct (find_value d key_suffix) as [v|] eqn:E; [|now exists z0].
  destruct (find_value_In d key_suffix v E) as [key Hin].
  destruct (Hd key v Hin) as (f & -> & Hnan & Hinf). simpl.
  now apply int_of_float_finite.
Qed.

Lemma as_number_lookup (d : store) (key_suffix : string) (f0 : float) :
  all_finite_numbers d ->
  exists f, as_number (get_value d key_suffix (Single (AFloat f0))) = Done f.
Proof.
  intros Hd.
  destruct (get_value_number d key_suffix f0) as [f ->]; [|now exists f].
  intros key v Hin. destruct (Hd key v Hin) as (f & -> & _). now exists f.
Qed.

(** X14: on a store whose values are all single finite numbers neither the
    gear nor the wing generator raises. *)
Theorem gear_wings_total_on_finite_numbers (self : Converter) :
  all_finite_numbers (data self) ->
  (exists out, generate_gear_xml py_int self = Done out)
  /\ (exists out, generate_wings_xml py_int self = Done out).
Proof.
  intros Hd. split.
  - unfold generate_gear_xml.
    destruct (int_of_lookup_finite (data self) "_gear/count" 0 Hd) as [count ->].
    cbn [and_then]. destruct (count =? 0)%Z; [now eexists|].
    rewrite run_loop_total; [cbn [and_then]; now eexists|].
    intros i _. unfold gear_body.
    destruct (int_of_lookup_finite (data self)
                (("_gear/" ++ PyStr.str_of_int i) ++ "/_gear_type") 0 Hd)
      as [t ->].
    cbn [and_then]. destruct (t =? 0)%Z; [now eexists|].
    destruct (as_number_lookup (data self)
                (("_gear/" ++ PyStr.str_of_int i) ++ "/_tire_radius") 0.1 Hd)
      as [? ->].
    destruct (as_number_lookup (data self)
                (("_gear/" ++ PyStr.str_of_int i) ++ "/_gear_z") 0 Hd) as [? ->].
    destruct (as_number_lookup (data self)
                (("_gear/" ++ PyStr.str_of_int i) ++ "/_gear_x") 0 Hd) as [? ->].
    destruct (as_number_lookup (data self)
                (("_gear/" ++ PyStr.str_of_int i) ++ "/_gear_y") 0 Hd) as [? ->].
    cbn [and_then]. now eexists.
  - unfold generate_wings_xml.
    destruct (int_of_lookup_finite (data self) "_wing/count" 0 Hd) as [count ->].
    cbn [and_then]. destruct (count =? 0)%Z; [now eexists|].
    rewrite run_loop_total; [cbn [and_then]; now eexists|].
    intros i _. unfold wing_body.
    destruct (eq_zero _ && eq_zero _); [now eexists|].
    destruct (as_number_lookup (data self)
                (("_wing/" ++ PyStr.str_of_int i) ++ "/_semilen_SEG") 0 Hd)
      as [? ->].
    destruct (as_number_lookup (data self)
                (("_wing/" ++ PyStr.str_of_int i) ++ "/_Croot") 0 Hd) as [? ->].
    destruct (as_number_lookup (data self)
                (("_wing/" ++ PyStr.str_of_int i) ++ "/_Ctip") 0 Hd) as [? ->].
    cbn [and_then]. now eexists.
Qed.

End GeneratorFacts.

Section EngineFacts.
Variable py_int : string -> option Z.

Lemma engine_body_inv (self : Converter) (i : N) (r : option RotorRecord) :
  engine_body py_int self i = Done r ->
  exists blades direction b,
    _get_prop_data py_int self i = Done (blades, direction)
    /\ float_of_int blades = Done b
    /\ r = Some {| rotor_index := i;
                   rotor_radius := (0.1 * b)%float;
                   rotor_inertia := default_rotor_inertia self |}.
Proof.
  unfold engine_body.
  destruct (_get_prop_data py_int self i) as [[blades direction]|];
    cbn [and_then]; [|discriminate].
  destruct (float_of_int blades) as [b|] eqn:Ef; cbn [and_then];
    [|discriminate].
  intros [= <-]. now exists blades, direction, b.
Qed.

(** X15: when the engine generator returns blocks there is exactly one
    rotor per motor index below the count, in increasing order, none
    skipped; the count is the greater of the engine and propeller counts,
    and a rotor's radius is 0.1 times the number of blades of its
    propeller. *)
Theorem engines_one_rotor_per_motor (self : Converter)
  (recs : list RotorRecord) :
  generate_engines_xml py_int self = Done (HeaderAnd recs) ->
  engine_count py_int self <> 0%Z
  /\ map rotor_index recs = py_range (engine_count py_int self)
  /\ forall c, In c recs ->
       exists blades direction b,
         _get_prop_data py_int self (rotor_index c) = Done (blades, direction)
         /\ float_of_int blades = Done b
         /\ rotor_radius c = (0.1 * b)%float
         /\ rotor_inertia c = default_rotor_inertia self.
Proof.
  unfold generate_engines_xml.
  destruct (Z.eqb_spec (engine_count py_int self) 0) as [|Hne]; [discriminate|].
  destruct (run_loop _ _ _) as [r|] eqn:Er; cbn [and_then]; [|discriminate].
  intros [= <-]. split; [assumption|].
  pose proof (run_loop_done_all _ _ _ _ Er) as Hall.
  apply run_loop_done in Er. simpl in Er. subst r. split.
  - set (idxs := py_range (engine_count py_int self)) in *.
    clearbody idxs. induction idxs as [|i rest IH]; [reflexivity|].
    unfold emitted. simpl. fold (emitted (engine_body py_int self) rest).
    destruct (Hall i) as [r Hr]; [now left|].
    destruct (engine_body_inv self i r Hr) as (bl & dir & b & _ & _ & ->).
    rewrite Hr. simpl. f_equal. apply IH. intros j Hj. apply Hall. now right.
  - intros c Hc. apply emitted_In in Hc. destruct Hc as [i [_ Hb]].
    destruct (engine_body_inv self i _ Hb) as (bl & dir & b & Hp & Hf & Hc).
    injection Hc as ->. simpl. now exists bl, dir, b.
Qed.

(** X16: a count that [int] cannot convert disables the rotors silently,
    where it makes the wing and gear generators raise: a failing engine or
    propeller count gives the empty string, a failing wing or gear count
    the exception of [int]. *)
Theorem count_conversion_failure (self : Converter) (e : py_error) :
  (int_of py_int (get_value_or (data self) "_engn/count" (PyInt 0)) = Throw e
   -> generate_engines_xml py_int self = Done EmptyXml)
  /\ (int_of py_int (get_value_or (data self) "_prop/count" (PyInt 0)) = Throw e
      -> generate_engines_xml py_int self = Done EmptyXml)
  /\ (int_of py_int (get_value_or (data self) "_wing/count" (PyInt 0)) = Throw e
      -> generate_wings_xml py_int self = Throw e)
  /\ (int_of py_int (get_value_or (data self) "_gear/count" (PyInt 0)) = Throw e
      -> generate_gear_xml py_int self = Throw e).
Proof.
  repeat split; intros H.
  - unfold generate_engines_xml, engine_count. now rewrite H.
  - unfold generate_engines_xml, engine_count. rewrite H.
    now destruct (int_of py_int (get_value_or (data self) "_engn/count" (PyInt 0))).
  - unfold generate_wings_xml. now rewrite H.
  - unfold generate_gear_xml. now rewrite H.
Qed.

(** X17: a propeller without keys of its own takes the blades and the
    direction of propeller 0: when no key ends with the blade key or the
    direction key of propeller [i], [_get_prop_data] returns for [i] what it
    returns for 0. *)
Theorem prop_template_fallback (self : Converter) (i : N) :
  (forall key v, In (key, v) (data self) ->
     ~ trailing (prop_key i "/_num_blades") key
     /\ ~ trailing (prop_key i "/_prop_dir") key) ->
  _get_prop_data py_int self i = _get_prop_data py_int self 0.
Proof.
  intros H. unfold _get_prop_data.
  change (PyStr.str_of_int 0) with "0"%string.
  change ("_prop/" ++ "0" ++ "/_num_blades")%string
    with "_prop/0/_num_blades"%string.
  change ("_prop/" ++ "0" ++ "/_prop_dir")%string
    with "_prop/0/_prop_dir"%string.
  rewrite !get_value_idem.
  fold (prop_key i "/_num_blades"). fold (prop_key i "/_prop_dir").
  rewrite (get_value_no_match _ (prop_key i "/_num_blades"))
    by (intros key v Hin; now apply (H key v)).
  rewrite (get_value_no_match _ (prop_key i "/_prop_dir"))
    by (intros key v Hin; now apply (H key v)).
  reflexivity.
Qed.

(** X18: with no key that ends with [/_num_blades] or [/_prop_dir] every
    motor gets the default rotor of two blades (radius 0.2): the generator
    returns the empty string for a count of 0 and one default rotor per motor
    index otherwise. *)
Theorem engines_default_rotors (self : Converter) :
  (forall key v, In (key, v) (data self) ->
     ~ trailing "/_num_blades" key /\ ~ trailing "/_prop_dir" key) ->
  generate_engines_xml py_int self
  = Done (if (engine_count py_int self =? 0)%Z then EmptyXml
          else HeaderAnd (map (default_rotor self)
                            (py_range (engine_count py_int self)))).
Proof.
  intros H. unfold generate_engines_xml.
  destruct (engine_count py_int self =? 0)%Z; [reflexivity|].
  assert (Hbody : forall i,
            engine_body py_int self i = Done (Some (default_rotor self i))).
  { intros i. unfold engine_body, _get_prop_data.
    change "_prop/0/_num_blades"%string
      with ("_prop/" ++ "0" ++ "/_num_blades")%string.
    change "_prop/0/_prop_dir"%string
      with ("_prop/" ++ "0" ++ "/_prop_dir")%string.
    rewrite !(get_value_unset2 (data self) _ _ "/_num_blades")
      by (intros key v Hin; now apply (H key v)).
    rewrite !(get_value_unset2 (data self) _ _ "/_prop_dir")
      by (intros key v Hin; now apply (H key v)).
    reflexivity. }
  rewrite run_loop_total by (intros i _; rewrite Hbody; now eexists).
  cbn [and_then app]. f_equal. f_equal.
  apply emitted_all. intros i _. apply Hbody.
Qed.

End EngineFacts.

(* ================================================================== *)
(** ** The offset keys of the parts *)

Lemma string_app_assoc (a b c : string) :
  ((a ++ b) ++ c = a ++ (b ++ c))%string.
Proof. induction a as [|x a IH]; simpl; [reflexivity | now rewrite IH]. Qed.

Lemma split_on_from_free (sep : ascii) (d : string) :
  PyStr.all_chars (fun c => negb (Ascii.eqb c sep)) d = true ->
  forall tok, PyStr.split_on_from sep tok d = [(tok ++ d)%string].
Proof.
  induction d as [|c d IH]; simpl; intros H tok.
  - f_equal. induction tok as [|x t IHt]; simpl; [reflexivity | now rewrite <- IHt].
  - apply andb_true_iff in H. destruct H as [Hc Hd].
    apply negb_true_iff in Hc. rewrite Hc, (IH Hd).
    now rewrite string_app_assoc.
Qed.

Lemma split_on_from_app (sep : ascii) (x y : string) :
  forall tok,
    PyStr.split_on_from sep tok (x ++ String sep y)
    = PyStr.split_on_from sep tok x ++ PyStr.split_on_from sep "" y.
Proof.
  induction x as [|c x IH]; intros tok; simpl.
  - now rewrite Ascii.eqb_refl.
  - destruct (Ascii.eqb c sep); [now rewrite IH | apply IH].
Qed.

Lemma string_of_uint_slash_free (d : Decimal.uint) :
  slash_free (NilEmpty.string_of_uint d) = true.
Proof. induction d; simpl; auto. Qed.

Lemma str_of_int_inj (i j : N) :
  PyStr.str_of_int i = PyStr.str_of_int j -> i = j.
Proof.
  unfold PyStr.str_of_int. intros H. apply DecimalN.Unsigned.to_uint_inj.
  assert (E : Some (N.to_uint i) = Some (N.to_uint j))
    by (now rewrite <- !NilEmpty.usu, H).
  now injection E.
Qed.

Lemma split_offset_key (pre s name : string) :
  slash_free s = true -> slash_free name = true ->
  PyStr.split_on "/" (pre ++ "_part/" ++ s ++ "/" ++ name)
  = PyStr.split_on "/" (pre ++ "_part") ++ [s; name].
Proof.
  intros Hs Hn. unfold PyStr.split_on.
  replace (pre ++ "_part/" ++ s ++ "/" ++ name)%string
    with ((pre ++ "_part") ++ String "/" (s ++ String "/" name))%string
    by (now rewrite string_app_assoc).
  rewrite split_on_from_app, split_on_from_app.
  now rewrite (split_on_from_free "/" s Hs), (split_on_from_free "/" name Hn).
Qed.

(** X19: the suffix lookup of a part's offset cannot pick up the offset
    of another part: the offset key of part [i] is a trailing substring of a
    key [...._part/<s>/<name>] exactly when the segment [s] is the decimal
    writing of [i]. So the key of part 11 never answers for part 1, and a
    part written with leading zeros does not find its own offset. *)
Theorem offset_key_matches_canonical (i : N) (pre s name : string) :
  slash_free s = true -> slash_free name = true ->
  (trailing (offset_key i name) (pre ++ "_part/" ++ s ++ "/" ++ name)
   <-> s = PyStr.str_of_int i)
  /\ forall j, trailing (offset_key i name) (pre ++ offset_key j name) ->
       i = j.
Proof.
  intros Hs Hn.
  assert (Hmain : forall t, slash_free t = true ->
            trailing (offset_key i name) (pre ++ "_part/" ++ t ++ "/" ++ name) ->
            t = PyStr.str_of_int i).
  { intros t Ht [p Hp]. unfold offset_key in Hp.
    apply (f_equal (PyStr.split_on "/")) in Hp.
    rewrite (split_offset_key pre t name Ht Hn) in Hp.
    rewrite (split_offset_key p (PyStr.str_of_int i) name
               (string_of_uint_slash_free _) Hn) in Hp.
    change [t; name] with ([t] ++ [name]) in Hp.
    change [PyStr.str_of_int i; name]
      with ([PyStr.str_of_int i] ++ [name]) in Hp.
    rewrite !app_assoc in Hp.
    apply app_inj_tail in Hp. destruct Hp as [Hp _].
    apply app_inj_tail in Hp. now destruct Hp as [_ Hp]. }
  split.
  - split; [now apply Hmain|]. intros ->. now exists pre.
  - intros j Hj. unfold offset_key in Hj at 2.
    apply Hmain in Hj; [|apply string_of_uint_slash_free].
    symmetry. now apply str_of_int_inj.
Qed.

(* ================================================================== *)
(** ** More on the mass *)

Section MassFacts.
Variable py_float : string -> option float.

(** X20: the legacy key is consulted only when the primary lookup compares
    equal to 0: a primary mass stored as a word or as a list is kept as the
    mass, whatever the legacy key holds, and [generate_inertial_xml] then
    raises a [TypeError]. *)
Theorem nonnumeric_mass_raises (content : string) :
  (forall f, get_value (_parse_acf py_float content) "acf/_m_empty"
               (Single (AFloat 0)) <> Single (AFloat f)) ->
  mass_lb (__init__ py_float content)
  = get_value (_parse_acf py_float content) "acf/_m_empty" (Single (AFloat 0))
  /\ generate_inertial_xml (__init__ py_float content) = Raise TypeError.
Proof.
  intros H. unfold generate_inertial_xml.
  rewrite init_mass_resolution. cbv zeta.
  destruct (get_value (_parse_acf py_float content) "acf/_m_empty"
              (Single (AFloat 0))) as [[f|s]|l]; simpl.
  - exfalso. now apply (H f).
  - now split.
  - now split.
Qed.

End MassFacts.

(* ================================================================== *)
(** ** The further theorems at concrete inputs *)

Lemma line_value_coercion_witness :
  line_entry Example.decimal_float "  P k 2 x "
  = Some ("k"%string, Many [AFloat 2; AStr "x"]).
Proof.
  rewrite (line_value_coercion Example.decimal_float "  P k 2 x " "k 2 x").
  - reflexivity.
  - reflexivity.
Defined.

Lemma parse_last_write_wins_witness :
  get_value (_parse_acf Example.decimal_float twice_text) "k"
    (Single (AFloat 0))
  = Many [AFloat 2; AFloat 3].
Proof.
  apply (parse_last_write_wins Example.decimal_float twice_text
           ["P k 1"%string] ["P other 5"%string] "P k 2 3").
  - reflexivity.
  - reflexivity.
  - intros l' v' [<-|[]]. vm_compute. discriminate.
Defined.

Lemma records_follow_parts_witness :
  [Example.box_record]
  = emitted_parts Example.decimal_float (on_store Example.box_store)
      (parts_bounds (scan Example.decimal_float Example.box_store)).
Proof.
  apply (proj1 (records_follow_parts Example.decimal_float
                  (on_store Example.box_store) [InfoPoints 6 1]
                  [Example.box_record] eq_refl)).
Defined.

Lemma no_points_no_blocks_witness :
  exists log out,
    generate_fuselage_collisions Example.decimal_float
      (on_store refused_axis_store) = Ok (log, out)
    /\ (out = NoOutput \/ out = Blocks []).
Proof.
  apply (no_points_no_blocks Example.decimal_float
           (on_store refused_axis_store)).
  reflexivity.
Defined.

Lemma aggregation_total_on_numbers_witness :
  exists log out,
    generate_fuselage_collisions Example.decimal_float (on_store offset_store)
    = Ok (log, out).
Proof.
  apply (aggregation_total_on_numbers Example.decimal_float
           (on_store offset_store)).
  intros key v Hin. simpl in Hin.
  repeat (destruct Hin as [Hin|Hin];
          [injection Hin as <- <-; eexists; reflexivity|]).
  destruct Hin.
Defined.

Lemma offset_failure_aborts_witness :
  exists e,
    generate_fuselage_collisions Example.decimal_float
      (on_store offset_word_store) = Raise e.
Proof.
  apply (offset_failure_aborts Example.decimal_float
           (on_store offset_word_store) 0 box_bounds 0 10 0 2
           "_part_x" ValueError).
  - vm_compute. left. reflexivity.
  - reflexivity.
  - reflexivity.
  - reflexivity.
  - reflexivity.
  - discriminate.
  - reflexivity.
  - simpl. left. reflexivity.
  - reflexivity.
Defined.

Lemma gear_records_transformed_witness :
  exists c lat vert long,
    generate_gear_xml decimal_int (on_store gear_store) = Done (HeaderAnd [c])
    /\ gear_index c = 1%N
    /\ gear_pose c = convert_coords (on_store gear_store) lat vert long.
Proof.
  assert (Hgen : generate_gear_xml decimal_int (on_store gear_store)
                 = Done (HeaderAnd
                           [{| gear_index := 1;
                               gear_pose := convert_coords (on_store gear_store)
                                              1 2 3;
                               gear_radius := (0.1 * 0.3048)%float |}]))
    by (vm_compute; reflexivity).
  destruct (gear_records_transformed decimal_int (on_store gear_store) _ _
              Hgen (or_introl eq_refl))
    as (count & t & lat & vert & long & radius & _ & _ & _ & _ & _ & _ & _ & _
        & Hpose & _).
  eexists. exists lat, vert, long.
  split; [exact Hgen|]. split; [reflexivity | exact Hpose].
Defined.

Lemma gear_empty_slot_skipped_witness :
  gear_body decimal_int (on_store gear_store) 0 = Done None.
Proof.
  refine (proj1 (gear_empty_slot_skipped decimal_int (on_store gear_store)
                   0 _)).
  reflexivity.
Defined.

Lemma wing_records_shape_witness :
  exists recs,
    generate_wings_xml decimal_int (on_store wing_store)
    = Done (HeaderAnd recs)
    /\ List.length recs = 2
    /\ forall c, In c recs -> (0 <? fst (fst (wing_box c)))%float = true.
Proof.
  destruct (generate_wings_xml decimal_int (on_store wing_store))
    as [[|recs]|] eqn:Hgen; try (vm_compute in Hgen; discriminate).
  exists recs. split; [reflexivity|]. split.
  - vm_compute in Hgen. injection Hgen as <-. reflexivity.
  - intros c Hc.
    destruct (wing_records_shape decimal_int (on_store wing_store) recs c
                Hgen Hc)
      as (semi & root & tip & _ & _ & _ & _ & Hdepth & _).
    exact Hdepth.
Defined.

Lemma wing_empty_slot_skipped_witness :
  wing_body (on_store wing_store) 0 = Done None.
Proof.
  refine (proj1 (wing_empty_slot_skipped decimal_int (on_store wing_store)
                   0 _ _)); reflexivity.
Defined.

Lemma gear_wings_total_witness :
  (exists out, generate_gear_xml decimal_int (on_store landing_store)
               = Done out)
  /\ (exists out, generate_wings_xml decimal_int (on_store landing_store)
                  = Done out).
Proof.
  apply (gear_wings_total_on_finite_numbers decimal_int
           (on_store landing_store)).
  intros key v Hin. simpl in Hin.
  repeat (destruct Hin as [Hin|Hin];
          [injection Hin as <- <-; eexists; repeat split; reflexivity|]).
  destruct Hin.
Defined.

Lemma engines_one_rotor_per_motor_witness :
  exists recs,
    generate_engines_xml decimal_int (on_store prop_store)
    = Done (HeaderAnd recs)
    /\ map rotor_index recs = [0%N; 1%N].
Proof.
  destruct (generate_engines_xml decimal_int (on_store prop_store))
    as [[|recs]|] eqn:Hgen; try (vm_compute in Hgen; discriminate).
  exists recs. split; [reflexivity|].
  rewrite (proj1 (proj2 (engines_one_rotor_per_motor decimal_int
                           (on_store prop_store) recs Hgen))).
  reflexivity.
Defined.

Lemma count_conversion_failure_witness :
  generate_engines_xml decimal_int (on_store engine_store) = Done EmptyXml.
Proof.
  apply (proj1 (count_conversion_failure decimal_int (on_store engine_store)
                  (Builtin ValueError))).
  reflexivity.
Defined.

Lemma prop_template_fallback_witness :
  _get_prop_data decimal_int (on_store prop_store) 5
  = _get_prop_data decimal_int (on_store prop_store) 0.
Proof.
  apply (prop_template_fallback decimal_int (on_store prop_store) 5).
  intros key v Hin. simpl in Hin.
  repeat (destruct Hin as [Hin|Hin];
          [injection Hin as <- <-; split; apply endswith_not_trailing;
           reflexivity|]).
  destruct Hin.
Defined.

Lemma engines_default_rotors_witness :
  generate_engines_xml decimal_int (on_store count_only_store)
  = Done (HeaderAnd [default_rotor (on_store count_only_store) 0;
                     default_rotor (on_store count_only_store) 1]).
Proof.
  rewrite (engines_default_rotors decimal_int (on_store count_only_store)).
  - reflexivity.
  - intros key v Hin. simpl in Hin.
    destruct Hin as [Hin|[]]. injection Hin as <- <-.
    split; apply endswith_not_trailing; reflexivity.
Defined.

Lemma offset_key_matches_canonical_witness :
  trailing (offset_key 1 "_part_x") "acf/_part/11/_part_x"
  <-> "11"%string = PyStr.str_of_int 1.
Proof.
  exact (proj1 (offset_key_matches_canonical 1 "acf/" "11" "_part_x"
                  eq_refl eq_refl)).
Defined.

Lemma nonnumeric_mass_raises_witness :
  generate_inertial_xml (__init__ Example.decimal_float word_mass_text)
  = Raise TypeError.
Proof.
  refine (proj2 (nonnumeric_mass_raises Example.decimal_float word_mass_text
                   _)).
  intros f. vm_compute. discriminate.
Defined.
